(** * Node manifests: resolving the page that owns a node

    A shallow embedding of [packages/gatsby/src/utils/node-manifest.ts]
    and the properties its specification states about it.

    Conventions of the embedding:
    - a JavaScript [Map] is an insertion-ordered association list
      ([JsMap.t]); a JavaScript [Set] of strings is an insertion-ordered
      list of strings;
    - [undefined] and [null] are [None]; a value that is a string is
      [Some s];
    - the truthiness tests of the source ([if (x)], [x ? a : b],
      [x || y]) are written out with [truthy]: the empty string is
      falsy, like [undefined] and [null]. *)

From Stdlib Require Import Ascii String.
From stdpp Require Import base option list strings gmap pretty.


(** ** JavaScript containers *)

Module JsMap.

Definition t (V : Type) : Type := list (string * V).

(** [Map.prototype.get] *)
Fixpoint get {V} (k : string) (m : t V) : option V :=
  match m with
  | [] => None
  | (k', v) :: rest => if decide (k' = k) then Some v else get k rest
  end.

(** [Map.prototype.values], in insertion order *)
Definition values {V} (m : t V) : list V := snd <$> m.

Definition keys {V} (m : t V) : list string := fst <$> m.

(** [Map.prototype.set]: an existing key keeps its position *)
Fixpoint set {V} (k : string) (v : V) (m : t V) : t V :=
  match m with
  | [] => [(k, v)]
  | (k', v') :: rest =>
      if decide (k' = k) then (k', v) :: rest else (k', v') :: set k v rest
  end.

End JsMap.

Module JsSet.

Definition t : Type := list string.

(** [Set.prototype.add] *)
Definition add (x : string) (s : t) : t :=
  if decide (x ∈ s) then s else s ++ [x].

(** [Set.prototype.values], in insertion order *)
Definition values (s : t) : list string := s.

(** [s.values().next().value] *)
Definition first (s : t) : option string := head s.

Definition size (s : t) : nat := length s.

End JsSet.

(** Truthiness of a value that is a string, [undefined] or [null]. *)
Definition truthy (v : option string) : bool :=
  match v with
  | Some s => bool_decide (s ≠ EmptyString)
  | None => false
  end.

(** [a || b] on such values. *)
Definition js_or (a b : option string) : option string :=
  if truthy a then a else b.

(** ** Data model *)

(** [page.context]: only its [id] is read; [None] when the context has no
    [id] that is a string. *)
Module PageContext.
Record t := mk { id : option string }.
End PageContext.

Module IGatsbyPage.
Record t := mk {
  path : string;
  ownerNodeId : option string;
  context : PageContext.t;
  pluginCreatorId : string
}.
End IGatsbyPage.

(** A node of [state.nodes] or of the datastore: only [name] is read. *)
Record IGatsbyNode := { name : option string }.

Record INodeRef := { node_id : string }.

Record INodeManifest := {
  manifestId : string;
  pluginName : string;
  node : INodeRef
}.

Inductive FoundPageBy :=
  | OwnerNodeId
  | FilesystemRouteApi
  | ContextId
  | QueryTracking
  | NotFound.

Definition FoundPageBy_to_string (k : FoundPageBy) : string :=
  match k with
  | OwnerNodeId => "ownerNodeId"
  | FilesystemRouteApi => "filesystem-route-api"
  | ContextId => "context.id"
  | QueryTracking => "queryTracking"
  | NotFound => "none"
  end.

Module INodeManifestPage.
Record t := mk { path : option string }.
End INodeManifestPage.

(** What [findPageOwnedByNodeId] returns. *)
Record Resolution := {
  page : INodeManifestPage.t;
  foundPageBy : FoundPageBy
}.

(** [process.env] and [process.platform] *)
Record Env := {
  NODE_ENV : option string;
  platform : string;
  gatsby_log_level : option string;
  VERBOSE_NODE_MANIFEST : option string
}.

(** The slices of [store.getState()] the file reads. *)
Record ReduxState := {
  pages : JsMap.t IGatsbyPage.t;
  nodes : JsMap.t IGatsbyNode;
  byNode : option (JsMap.t JsSet.t);
  program_directory : string;
  nodeManifests : list INodeManifest
}.

(** ** The resolver: [findPageOwnedByNodeId] *)

(** A value the loop iterates over: a page object (development, the
    values of the pages [Map]) or a page path (builds, the tracked
    [Set]). *)
Inductive Candidate :=
  | PageObject (p : IGatsbyPage.t)
  | PagePath (s : string).

Definition candidatePath (c : Candidate) : string :=
  match c with
  | PageObject p => IGatsbyPage.path p
  | PagePath s => s
  end.

Definition usingPagesMap (env : Env) : bool :=
  bool_decide (NODE_ENV env = Some "development").

(** [byNode?.get(nodeId)] *)
Definition trackedPaths (state : ReduxState) (nodeId : string) : option JsSet.t :=
  byNode state ≫= JsMap.get nodeId.

Definition pagePathSetOrMap (env : Env) (state : ReduxState) (nodeId : string)
  : option (list Candidate) :=
  if usingPagesMap env
  then Some (PageObject <$> JsMap.values (pages state))
  else (λ s, PagePath <$> JsSet.values s) <$> trackedPaths state nodeId.

(** The variables the loop updates. *)
Record LoopVars := {
  lv_foundPageBy : FoundPageBy;
  lv_ownerPagePath : option string;
  lv_foundOwnerNodeId : bool
}.

Definition fullPageOf (state : ReduxState) (c : Candidate) : option IGatsbyPage.t :=
  JsMap.get (candidatePath c) (pages state).

(** [fullPage?.ownerNodeId === nodeId] *)
Definition ownerMatches (state : ReduxState) (nodeId : string) (c : Candidate) : bool :=
  match fullPageOf state c with
  | Some fullPage => bool_decide (IGatsbyPage.ownerNodeId fullPage = Some nodeId)
  | None => false
  end.

(** [fullPage?.context.id === nodeId] *)
Definition contextMatches (state : ReduxState) (nodeId : string) (c : Candidate) : bool :=
  match fullPageOf state c with
  | Some fullPage => bool_decide (PageContext.id (IGatsbyPage.context fullPage) = Some nodeId)
  | None => false
  end.

(** [nodes.get(fullPage.pluginCreatorId)?.name === `gatsby-plugin-page-creator`] *)
Definition pageCreatedByFilesystemPlugin (state : ReduxState) (fullPage : IGatsbyPage.t) : bool :=
  let pageCreatedByPluginName :=
    JsMap.get (IGatsbyPage.pluginCreatorId fullPage) (nodes state) ≫= name in
  bool_decide (pageCreatedByPluginName = Some "gatsby-plugin-page-creator").

(** One iteration of the loop, after the [break] test. *)
Definition loopBody (state : ReduxState) (nodeId : string)
    (c : Candidate) (lv : LoopVars) : LoopVars :=
  let fullPage := fullPageOf state c in
  let foundOwnerNodeId := ownerMatches state nodeId c in
  let foundPageIdInContext := contextMatches state nodeId c in
  let foundPageBy' :=
    if foundOwnerNodeId then OwnerNodeId
    else match fullPage with
         | Some fp =>
             if foundPageIdInContext
             then (if pageCreatedByFilesystemPlugin state fp
                   then FilesystemRouteApi else ContextId)
             else lv_foundPageBy lv
         | None => lv_foundPageBy lv
         end in
  let ownerPagePath' :=
    match fullPage with
    | Some fp =>
        if foundOwnerNodeId || foundPageIdInContext
        then Some (IGatsbyPage.path fp)
        else lv_ownerPagePath lv
    | None => lv_ownerPagePath lv
    end in
  {| lv_foundPageBy := foundPageBy';
     lv_ownerPagePath := ownerPagePath';
     lv_foundOwnerNodeId := foundOwnerNodeId |}.

(** [for (const pathOrPageObject of pagePathSetOrMap.values())] with its
    leading [if (foundOwnerNodeId) break]. *)
Fixpoint scan (state : ReduxState) (nodeId : string)
    (cs : list Candidate) (lv : LoopVars) : LoopVars :=
  match cs with
  | [] => lv
  | c :: rest =>
      if lv_foundOwnerNodeId lv then lv
      else scan state nodeId rest (loopBody state nodeId c lv)
  end.

Definition findPageOwnedByNodeId (env : Env) (state : ReduxState) (nodeId : string)
  : Resolution :=
  let pagePath := trackedPaths state nodeId ≫= JsSet.first in
  let foundPageBy0 := if truthy pagePath then QueryTracking else NotFound in
  match pagePathSetOrMap env state nodeId with
  | Some cs =>
      let lv := scan state nodeId cs
                  {| lv_foundPageBy := foundPageBy0;
                     lv_ownerPagePath := None;
                     lv_foundOwnerNodeId := false |} in
      let pagePath' :=
        if truthy (lv_ownerPagePath lv) then lv_ownerPagePath lv else pagePath in
      {| page := INodeManifestPage.mk (js_or pagePath' None);
         foundPageBy := lv_foundPageBy lv |}
  | None =>
      {| page := INodeManifestPage.mk (js_or pagePath None);
         foundPageBy := foundPageBy0 |}
  end.

(** ** The world around the module *)

(** The manifest as written to disk. *)
Record INodeManifestOut := {
  out_node : INodeRef;
  out_page : INodeManifestPage.t;
  out_foundPageBy : FoundPageBy
}.

(** The [context] object handed to [reporter.error]. *)
Inductive ErrorContext :=
  | MappingContext (inputManifest : INodeManifest) (pagePath : option string)
  | NoNodeContext (pluginName : string) (nodeId : string).

Inductive Action :=
  | deleteNodeManifests.

(** What the module does to its collaborators, in order. *)
Inductive Event :=
  | ReporterError (errorId : string) (context : ErrorContext)
  | ReporterInfo (message : string)
  | FsEnsureDir (dir : string)
  | FsWriteJSON (file : string) (data : INodeManifestOut)
  | StoreDispatch (action : Action).

(** The store, the datastore, the disk, the reporter, and the variables
    [processNodeManifests] closes over and hands to [processNodeManifest]
    by reference ([listOfUniqueErrorIds], [nodeManifestPagePathMap]). *)
Record Machine := {
  env : Env;
  state : ReduxState;
  datastore : gmap string IGatsbyNode;
  dirs : gset string;
  files : gmap string INodeManifestOut;
  trace : list Event;
  clockReads : nat;
  listOfUniqueErrorIds : JsSet.t;
  nodeManifestPagePathMap : JsMap.t string;
  totalProcessedManifests : nat;
  totalFailedManifests : nat
}.

(** A call either returns or throws; both leave a machine behind. *)
Inductive Outcome (A : Type) :=
  | Returned (a : A) (m : Machine)
  | Threw (message : string) (m : Machine).
Arguments Returned {A} a m.
Arguments Threw {A} message m.

Definition Js (A : Type) : Type := Machine → Outcome A.

#[global] Instance Js_ret : MRet Js := λ A a m, Returned a m.
#[global] Instance Js_bind : MBind Js := λ A B f c m,
  match c m with
  | Returned a m' => f a m'
  | Threw msg m' => Threw msg m'
  end.

Definition throw {A} (message : string) : Js A := λ m, Threw message m.
Definition gets {A} (f : Machine → A) : Js A := λ m, Returned (f m) m.
Definition modify (f : Machine → Machine) : Js unit := λ m, Returned () (f m).

Definition emit (e : Event) (m : Machine) : Machine :=
  {| env := env m; state := state m; datastore := datastore m;
     dirs := dirs m; files := files m;
     trace := trace m ++ [e];
     clockReads := clockReads m;
     listOfUniqueErrorIds := listOfUniqueErrorIds m;
     nodeManifestPagePathMap := nodeManifestPagePathMap m;
     totalProcessedManifests := totalProcessedManifests m;
     totalFailedManifests := totalFailedManifests m |}.

(** [getNode(id)] of the datastore *)
Definition getNode (nodeId : string) : Js (option IGatsbyNode) :=
  gets (λ m, datastore m !! nodeId).

Definition reporter_error (errorId : string) (context : ErrorContext) : Js unit :=
  modify (emit (ReporterError errorId context)).

Definition reporter_info (message : string) : Js unit :=
  modify (emit (ReporterInfo message)).

(** [fs.ensureDir]: the directory exists afterwards. *)
Definition fs_ensureDir (dir : string) : Js unit :=
  modify (λ m,
    let m := emit (FsEnsureDir dir) m in
    {| env := env m; state := state m; datastore := datastore m;
       dirs := {[dir]} ∪ dirs m; files := files m;
       trace := trace m;
       clockReads := clockReads m;
       listOfUniqueErrorIds := listOfUniqueErrorIds m;
       nodeManifestPagePathMap := nodeManifestPagePathMap m;
       totalProcessedManifests := totalProcessedManifests m;
       totalFailedManifests := totalFailedManifests m |}).

(** [fs.writeJSON]: the file holds the data afterwards, whatever it held
    before. *)
Definition fs_writeJSON (file : string) (data : INodeManifestOut) : Js unit :=
  modify (λ m,
    let m := emit (FsWriteJSON file data) m in
    {| env := env m; state := state m; datastore := datastore m;
       dirs := dirs m; files := <[file := data]> (files m);
       trace := trace m;
       clockReads := clockReads m;
       listOfUniqueErrorIds := listOfUniqueErrorIds m;
       nodeManifestPagePathMap := nodeManifestPagePathMap m;
       totalProcessedManifests := totalProcessedManifests m;
       totalFailedManifests := totalFailedManifests m |}).

(** [listOfUniqueErrorIds.add(id)] *)
Definition listOfUniqueErrorIds_add (errorId : string) : Js unit :=
  modify (λ m,
    {| env := env m; state := state m; datastore := datastore m;
       dirs := dirs m; files := files m; trace := trace m;
       clockReads := clockReads m;
       listOfUniqueErrorIds := JsSet.add errorId (listOfUniqueErrorIds m);
       nodeManifestPagePathMap := nodeManifestPagePathMap m;
       totalProcessedManifests := totalProcessedManifests m;
       totalFailedManifests := totalFailedManifests m |}).

(** [nodeManifestPagePathMap.set(pagePath, fileNameBase)] *)
Definition nodeManifestPagePathMap_set (pagePath fileNameBase : string) : Js unit :=
  modify (λ m,
    {| env := env m; state := state m; datastore := datastore m;
       dirs := dirs m; files := files m; trace := trace m;
       clockReads := clockReads m;
       listOfUniqueErrorIds := listOfUniqueErrorIds m;
       nodeManifestPagePathMap :=
         JsMap.set pagePath fileNameBase (nodeManifestPagePathMap m);
       totalProcessedManifests := totalProcessedManifests m;
       totalFailedManifests := totalFailedManifests m |}).

(** Modelled from the spec: the reducer of the [deleteNodeManifests]
    action is not part of this file; the specification (4.3, step 7) has
    the store's collection of pending requests emptied by that single
    action. *)
Definition reduce (a : Action) (s : ReduxState) : ReduxState :=
  match a with
  | deleteNodeManifests =>
      {| pages := pages s; nodes := nodes s; byNode := byNode s;
         program_directory := program_directory s;
         nodeManifests := [] |}
  end.

(** [store.dispatch(action)] *)
Definition store_dispatch (a : Action) : Js unit :=
  modify (λ m,
    let m := emit (StoreDispatch a) m in
    {| env := env m; state := reduce a (state m); datastore := datastore m;
       dirs := dirs m; files := files m; trace := trace m;
       clockReads := clockReads m;
       listOfUniqueErrorIds := listOfUniqueErrorIds m;
       nodeManifestPagePathMap := nodeManifestPagePathMap m;
       totalProcessedManifests := totalProcessedManifests m;
       totalFailedManifests := totalFailedManifests m |}).

(** ** Diagnostics: [foundPageByToLogIds] and
    [warnAboutNodeManifestMappingProblems] *)

Definition foundPageByToLogIds (k : FoundPageBy) : string :=
  match k with
  | NotFound => "11801"
  | ContextId => "11802"
  | QueryTracking => "11803"
  | FilesystemRouteApi => "success"
  | OwnerNodeId => "success"
  end.

(** The [case] labels of the [switch]: which kind a run-time string
    names, if any. *)
Definition FoundPageBy_of_string (s : string) : option FoundPageBy :=
  if decide (s = "none") then Some NotFound
  else if decide (s = "context.id") then Some ContextId
  else if decide (s = "queryTracking") then Some QueryTracking
  else if decide (s = "filesystem-route-api") then Some FilesystemRouteApi
  else if decide (s = "ownerNodeId") then Some OwnerNodeId
  else None.

(** The argument [foundPageBy] is the run-time string, so that the
    [default] branch of the [switch] is part of the model. *)
Definition warnAboutNodeManifestMappingProblems
    (inputManifest : INodeManifest) (pagePath : option string)
    (foundPageBy : string) (verbose : bool) : Js string :=
  match FoundPageBy_of_string foundPageBy with
  | Some ((NotFound | ContextId | QueryTracking) as k) =>
      let logId := foundPageByToLogIds k in
      (if verbose
       then reporter_error logId (MappingContext inputManifest pagePath)
       else mret ());;
      mret logId
  | Some (FilesystemRouteApi | OwnerNodeId) =>
      mret "success"
  | None =>
      throw "Node Manifest mapping is in an impossible state"
  end.

(** ** The manifest processor and the batch orchestrator *)

(** The characters the regular expression of the source matches, one
    alternative each: colon, slash, asterisk, question mark, double quote
    (code 34), the two angle brackets, pipe and backslash (code 92). They
    are all ASCII, so replacing them byte by byte in a UTF-8 string is
    what the source does code unit by code unit. *)
Definition reservedChar (c : ascii) : bool :=
  bool_decide (c ∈ [":"; "/"; "*"; "?"; "034"; "<"; ">"; "|"; "092"]%char).

(** [fileNameBase.replace(/.../g, `-`)] *)
Fixpoint replaceReserved (s : string) : string :=
  match s with
  | EmptyString => EmptyString
  | String c rest =>
      String (if reservedChar c then "-"%char else c) (replaceReserved rest)
  end.

(** [fileNameBase] once the [if (process.platform === `win32`)] is
    through. *)
Definition fileNameBaseOf (process_platform manifestId : string) : string :=
  if decide (process_platform = "win32")
  then replaceReserved manifestId
  else manifestId.

Definition quote : string := String "034"%char EmptyString.
Definition newline : string := String "010"%char EmptyString.

(** [array.join(sep)] *)
Fixpoint join (sep : string) (l : list string) : string :=
  match l with
  | [] => EmptyString
  | [x] => x
  | x :: rest => x +:+ sep +:+ join sep rest
  end.

Definition pluralize (length : nat) : string :=
  if Nat.ltb 1 length || Nat.eqb length 0 then "s" else EmptyString.

(** The first message of the summary. *)
Definition summaryMessage (processed failed : nat) (elapsed : Z) : string :=
  "Wrote out " +:+ pretty processed +:+ " node page manifest file"
  +:+ pluralize processed +:+ " in " +:+ pretty elapsed +:+ " ms. "
  +:+ (if Nat.ltb 0 failed
       then ". " +:+ pretty failed +:+ " manifest" +:+ pluralize failed
            +:+ " couldn't be processed."
       else EmptyString).

(** The second message of the summary. *)
Definition warningsMessage (verboseLogs : bool) (ids : JsSet.t) : string :=
  (if negb verboseLogs && Nat.ltb 0 (JsSet.size ids)
   then "unstable_createNodeManifest produced warnings ["
        +:+ join ", " (JsSet.values ids) +:+ "]. "
   else EmptyString)
  +:+ "To see full warning messages set process.env.VERBOSE_NODE_MANIFEST to "
  +:+ quote +:+ "true" +:+ quote +:+ "." +:+ newline
  +:+ "Visit https://gatsby.dev/nodemanifest for more info on Node Manifests.".

Definition verboseLogsOf (e : Env) : bool :=
  bool_decide (gatsby_log_level e = Some "verbose")
  || bool_decide (VERBOSE_NODE_MANIFEST e = Some "true").

Definition tick (m : Machine) : Machine :=
  {| env := env m; state := state m; datastore := datastore m;
     dirs := dirs m; files := files m; trace := trace m;
     clockReads := S (clockReads m);
     listOfUniqueErrorIds := listOfUniqueErrorIds m;
     nodeManifestPagePathMap := nodeManifestPagePathMap m;
     totalProcessedManifests := totalProcessedManifests m;
     totalFailedManifests := totalFailedManifests m |}.

(** The [let]s and [const]s at the top of [processNodeManifests]: zeroed
    counters, [new Map()], [new Set()]. *)
Definition freshBatch (m : Machine) : Machine :=
  {| env := env m; state := state m; datastore := datastore m;
     dirs := dirs m; files := files m; trace := trace m;
     clockReads := clockReads m;
     listOfUniqueErrorIds := [];
     nodeManifestPagePathMap := [];
     totalProcessedManifests := 0;
     totalFailedManifests := 0 |}.

Definition countProcessed (m : Machine) : Machine :=
  {| env := env m; state := state m; datastore := datastore m;
     dirs := dirs m; files := files m; trace := trace m;
     clockReads := clockReads m;
     listOfUniqueErrorIds := listOfUniqueErrorIds m;
     nodeManifestPagePathMap := nodeManifestPagePathMap m;
     totalProcessedManifests := S (totalProcessedManifests m);
     totalFailedManifests := totalFailedManifests m |}.

Definition countFailed (m : Machine) : Machine :=
  {| env := env m; state := state m; datastore := datastore m;
     dirs := dirs m; files := files m; trace := trace m;
     clockReads := clockReads m;
     listOfUniqueErrorIds := listOfUniqueErrorIds m;
     nodeManifestPagePathMap := nodeManifestPagePathMap m;
     totalProcessedManifests := totalProcessedManifests m;
     totalFailedManifests := S (totalFailedManifests m) |}.

Section NodeManifest.

(** Library code the file calls, taken as parameters: [path.join] and
    [path.dirname] of Node's [path] module, and the successive readings
    of the clock behind [Date.now()]. *)
Variable path_join : list string → string.
Variable path_dirname : string → string.
Variable clock : nat → Z.

(** The work queue ([fastq], concurrency 25) is library code as well.
    It runs the worker once on every request pushed; workers overlap at
    their [await]s, in an order the library and the disk decide. The
    model takes each worker's effects in one piece and leaves the order
    in which the workers are taken as a parameter: any permutation of
    the requests pushed. *)
Variable fastq_order : list INodeManifest → list INodeManifest.
Hypothesis fastq_order_perm : ∀ l, fastq_order l ≡ₚ l.

(** [path.join(gatsbySiteDirectory, `public`, `__node-manifests`,
    inputManifest.pluginName, `${fileNameBase}.json`)] *)
Definition manifestFilePathOf
    (gatsbySiteDirectory pluginName fileNameBase : string) : string :=
  path_join [gatsbySiteDirectory; "public"; "__node-manifests";
             pluginName; fileNameBase +:+ ".json"].

(** [Date.now()] *)
Definition Date_now : Js Z :=
  λ m, Returned (clock (clockReads m)) (tick m).

Definition processNodeManifest
    (inputManifest : INodeManifest) (verboseLogs : bool)
  : Js (option INodeManifestOut) :=
  let nodeId := node_id (node inputManifest) in
  fullNode ← getNode nodeId;
  let noNodeWarningId := "11804" in
  match fullNode with
  | None =>
      (if verboseLogs
       then reporter_error noNodeWarningId
              (NoNodeContext (pluginName inputManifest) nodeId)
       else listOfUniqueErrorIds_add noNodeWarningId);;
      mret None
  | Some _ =>
      r ← gets (λ m, findPageOwnedByNodeId (env m) (state m) nodeId);
      let nodeManifestPage := page r in
      let foundPageBy := foundPageBy r in
      let warn :=
        warnAboutNodeManifestMappingProblems inputManifest
          (INodeManifestPage.path nodeManifestPage)
          (FoundPageBy_to_string foundPageBy) verboseLogs in
      (if verboseLogs
       then warn;; mret ()
       else logId ← warn;
            if bool_decide (logId ≠ "success")
            then listOfUniqueErrorIds_add logId
            else mret ());;
      let finalManifest :=
        {| out_node := node inputManifest;
           out_page := nodeManifestPage;
           out_foundPageBy := foundPageBy |} in
      gatsbySiteDirectory ← gets (λ m, program_directory (state m));
      process_platform ← gets (λ m, platform (env m));
      let fileNameBase :=
        fileNameBaseOf process_platform (manifestId inputManifest) in
      let manifestFilePath :=
        manifestFilePathOf gatsbySiteDirectory (pluginName inputManifest)
          fileNameBase in
      let manifestFileDir := path_dirname manifestFilePath in
      fs_ensureDir manifestFileDir;;
      fs_writeJSON manifestFilePath finalManifest;;
      (if verboseLogs
       then reporter_info
              ("Plugin " +:+ pluginName inputManifest
               +:+ " created a manifest with the id " +:+ fileNameBase)
       else mret ());;
      (match INodeManifestPage.path nodeManifestPage with
       | Some pagePath =>
           if truthy (Some pagePath)
           then nodeManifestPagePathMap_set pagePath fileNameBase
           else mret ()
       | None => mret ()
       end);;
      mret (Some finalManifest)
  end.

(** The worker of the queue. Its [setImmediate(() => cb(null, true))]
    tells the queue the task is over and changes nothing else. *)
Definition processNodeManifestTask
    (manifest : INodeManifest) (verboseLogs : bool) : Js unit :=
  processedManifest ← processNodeManifest manifest verboseLogs;
  match processedManifest with
  | Some _ => modify countProcessed
  | None => modify countFailed
  end.

(** The queue from the first [push] to [drain]. *)
Fixpoint runQueue (tasks : list INodeManifest) (verboseLogs : bool) : Js unit :=
  match tasks with
  | [] => mret ()
  | manifest :: rest =>
      processNodeManifestTask manifest verboseLogs;;
      runQueue rest verboseLogs
  end.

Definition processNodeManifests : Js (option (JsMap.t string)) :=
  verboseLogs ← gets (λ m, verboseLogsOf (env m));
  startTime ← Date_now;
  pending ← gets (λ m, nodeManifests (state m));
  let totalManifests := length pending in
  if decide (totalManifests = 0) then mret None
  else
    modify freshBatch;;
    runQueue (fastq_order pending) verboseLogs;;
    endTime ← Date_now;
    processed ← gets totalProcessedManifests;
    failed ← gets totalFailedManifests;
    ids ← gets listOfUniqueErrorIds;
    reporter_info (summaryMessage processed failed (endTime - startTime));;
    reporter_info (warningsMessage verboseLogs ids);;
    store_dispatch deleteNodeManifests;;
    result ← gets nodeManifestPagePathMap;
    mret (Some result).

End NodeManifest.


(** ** Derived notions used to state the properties *)

(** The variables of the loop before its first iteration. *)
Definition initialVars (state : ReduxState) (nodeId : string) : LoopVars :=
  {| lv_foundPageBy :=
       if truthy (trackedPaths state nodeId ≫= JsSet.first)
       then QueryTracking else NotFound;
     lv_ownerPagePath := None;
     lv_foundOwnerNodeId := false |}.

(** The file writes, the dispatched actions and the reporter's messages
    of a trace, in order. *)
Definition writesOf (t : list Event) : list (string * INodeManifestOut) :=
  omap (λ e, match e with FsWriteJSON f d => Some (f, d) | _ => None end) t.

Definition dispatchesOf (t : list Event) : list Action :=
  omap (λ e, match e with StoreDispatch a => Some a | _ => None end) t.

Definition infosOf (t : list Event) : list string :=
  omap (λ e, match e with ReporterInfo s => Some s | _ => None end) t.

Definition errorsOf (t : list Event) : list string :=
  omap (λ e, match e with ReporterError i _ => Some i | _ => None end) t.

(** The kinds whose id in the table is not [success]. *)
Definition isWarning (k : FoundPageBy) : bool :=
  match k with
  | OwnerNodeId | FilesystemRouteApi => false
  | ContextId | QueryTracking | NotFound => true
  end.

Definition isFsCall (e : Event) : bool :=
  match e with
  | FsEnsureDir _ | FsWriteJSON _ _ => true
  | _ => false
  end.

(** The calls to [fs] of a trace, in order. *)
Definition fsCallsOf (t : list Event) : list Event :=
  filter (λ e, isFsCall e) t.

Section Effects.

(** What one request does depends on the machine only through [env],
    [state] and [datastore], which the module never changes while a
    batch runs. *)
Variable path_join : list string → string.
Variable path_dirname : string → string.
Variable verboseLogs : bool.
Variable m : Machine.
Variable req : INodeManifest.

Definition nodeKnown : bool :=
  bool_decide (is_Some (datastore m !! node_id (node req))).

Definition resolutionOf : Resolution :=
  findPageOwnedByNodeId (env m) (state m) (node_id (node req)).

Definition finalManifestOf : INodeManifestOut :=
  {| out_node := node req;
     out_page := page resolutionOf;
     out_foundPageBy := foundPageBy resolutionOf |}.

Definition fileNameBaseFor : string :=
  fileNameBaseOf (platform (env m)) (manifestId req).

Definition manifestFilePathFor : string :=
  manifestFilePathOf path_join (program_directory (state m))
    (pluginName req) fileNameBaseFor.

Definition mappingLogId : string :=
  foundPageByToLogIds (foundPageBy resolutionOf).

(** The events one request appends to the trace. *)
Definition requestEvents : list Event :=
  if nodeKnown then
    (if verboseLogs && bool_decide (mappingLogId ≠ "success")
     then [ReporterError mappingLogId
             (MappingContext req (INodeManifestPage.path (page resolutionOf)))]
     else [])
    ++ [FsEnsureDir (path_dirname manifestFilePathFor);
        FsWriteJSON manifestFilePathFor finalManifestOf]
    ++ (if verboseLogs
        then [ReporterInfo ("Plugin " +:+ pluginName req
                            +:+ " created a manifest with the id "
                            +:+ fileNameBaseFor)]
        else [])
  else
    if verboseLogs
    then [ReporterError "11804" (NoNodeContext (pluginName req) (node_id (node req)))]
    else [].

(** The ids one request adds to [listOfUniqueErrorIds]. *)
Definition requestErrorIds : list string :=
  if verboseLogs then []
  else if nodeKnown
       then (if bool_decide (mappingLogId ≠ "success") then [mappingLogId] else [])
       else ["11804"].

(** The entry one request sets in [nodeManifestPagePathMap]. *)
Definition requestEntry : option (string * string) :=
  if nodeKnown
  then match INodeManifestPage.path (page resolutionOf) with
       | Some pagePath =>
           if truthy (Some pagePath)
           then Some (pagePath, fileNameBaseFor) else None
       | None => None
       end
  else None.

(** The machine after the request has been processed. *)
Definition afterRequest : Machine :=
  {| env := env m; state := state m; datastore := datastore m;
     dirs := if nodeKnown
             then {[path_dirname manifestFilePathFor]} ∪ dirs m
             else dirs m;
     files := if nodeKnown
              then <[manifestFilePathFor := finalManifestOf]> (files m)
              else files m;
     trace := trace m ++ requestEvents;
     clockReads := clockReads m;
     listOfUniqueErrorIds :=
       foldl (λ acc i, JsSet.add i acc) (listOfUniqueErrorIds m) requestErrorIds;
     nodeManifestPagePathMap :=
       match requestEntry with
       | Some e => JsMap.set e.1 e.2 (nodeManifestPagePathMap m)
       | None => nodeManifestPagePathMap m
       end;
     totalProcessedManifests := totalProcessedManifests m;
     totalFailedManifests := totalFailedManifests m |}.

(** The machine after the worker of the queue has run on the request. *)
Definition afterTask : Machine :=
  if nodeKnown then countProcessed afterRequest else countFailed afterRequest.

End Effects.

(** [Map.prototype.set] and [Set.prototype.add], once per element. *)
Definition setAll (entries : list (string * string)) (map : JsMap.t string)
  : JsMap.t string :=
  foldl (λ acc e, JsMap.set e.1 e.2 acc) map entries.

Definition addAll (ids : list string) (s : JsSet.t) : JsSet.t :=
  foldl (λ acc i, JsSet.add i acc) s ids.

(** The machine after the queue has run the worker on every task, in
    the order given. *)
Definition afterQueue (path_join : list string → string)
    (path_dirname : string → string) (verboseLogs : bool)
    (m : Machine) (tasks : list INodeManifest) : Machine :=
  foldl (afterTask path_join path_dirname verboseLogs) m tasks.
(** ** Sample stores *)

Definition developmentEnv : Env :=
  {| NODE_ENV := Some "development"; platform := "linux";
     gatsby_log_level := None; VERBOSE_NODE_MANIFEST := None |}.

Definition buildEnv : Env :=
  {| NODE_ENV := Some "production"; platform := "linux";
     gatsby_log_level := None; VERBOSE_NODE_MANIFEST := None |}.

Definition windowsEnv : Env :=
  {| NODE_ENV := Some "production"; platform := "win32";
     gatsby_log_level := None; VERBOSE_NODE_MANIFEST := None |}.

Definition verboseEnv : Env :=
  {| NODE_ENV := Some "production"; platform := "linux";
     gatsby_log_level := None; VERBOSE_NODE_MANIFEST := Some "true" |}.

Definition mkPage (p : string) (owner ctx : option string) (creator : string)
  : IGatsbyPage.t :=
  IGatsbyPage.mk p owner (PageContext.mk ctx) creator.

Definition sitePlugins : JsMap.t IGatsbyNode :=
  [("plugin-fs", {| name := Some "gatsby-plugin-page-creator" |});
   ("plugin-blog", {| name := Some "my-blog-plugin" |})].

(** Four pages about node [n1]: two carry it in their context, two own
    it; every one of them is tracked for [n1], and [n2] is tracked with
    a set that has been emptied. *)
Definition blogState : ReduxState :=
  {| pages := [("/a", mkPage "/a" None (Some "n1") "plugin-fs");
               ("/b", mkPage "/b" None (Some "n1") "plugin-blog");
               ("/c", mkPage "/c" (Some "n1") None "plugin-blog");
               ("/d", mkPage "/d" (Some "n1") (Some "n1") "plugin-blog");
               ("/e", mkPage "/e" None None "plugin-blog")];
     nodes := sitePlugins;
     byNode := Some [("n1", ["/b"; "/a"; "/d"; "/c"]);
                     ("n2", []);
                     ("n3", ["/e"; "/a"])];
     program_directory := "/site";
     nodeManifests := [] |}.

(** Two pages with [n1] in their context and no owner. *)
Definition contextOnlyState : ReduxState :=
  {| pages := [("/a", mkPage "/a" None (Some "n1") "plugin-fs");
               ("/b", mkPage "/b" None (Some "n1") "plugin-blog")];
     nodes := sitePlugins;
     byNode := Some [("n1", ["/a"; "/b"])];
     program_directory := "/site";
     nodeManifests := [] |}.

(** A page whose path is the empty string owns [n1]; another page is
    tracked for [n1]. *)
Definition emptyPathOwnerState : ReduxState :=
  {| pages := [(EmptyString, mkPage EmptyString (Some "n1") None "plugin-blog");
               ("/other", mkPage "/other" None None "plugin-blog")];
     nodes := sitePlugins;
     byNode := Some [("n1", ["/other"])];
     program_directory := "/site";
     nodeManifests := [] |}.

(** A page whose path is the empty string has [n1] in its context;
    nothing is tracked. *)
Definition emptyPathContextState : ReduxState :=
  {| pages := [(EmptyString, mkPage EmptyString None (Some "n1") "plugin-blog")];
     nodes := sitePlugins;
     byNode := Some [];
     program_directory := "/site";
     nodeManifests := [] |}.

(** [n1] is in the tracking index, with a set of paths that has been
    emptied. *)
Definition emptiedTrackingState : ReduxState :=
  {| pages := [("/a", mkPage "/a" None None "plugin-blog")];
     nodes := sitePlugins;
     byNode := Some [("n1", [])];
     program_directory := "/site";
     nodeManifests := [] |}.


(** A machine with nothing on disk and nothing reported yet. *)
Definition machineOf (e : Env) (s : ReduxState)
    (store : gmap string IGatsbyNode) : Machine :=
  {| env := e; state := s; datastore := store;
     dirs := ∅; files := ∅; trace := []; clockReads := 0;
     listOfUniqueErrorIds := []; nodeManifestPagePathMap := [];
     totalProcessedManifests := 0; totalFailedManifests := 0 |}.

Definition sampleNodes : gmap string IGatsbyNode :=
  {[ "n1" := {| name := None |}; "n3" := {| name := None |} ]}.

Definition request (mid plugin nid : string) : INodeManifest :=
  {| manifestId := mid; pluginName := plugin; node := {| node_id := nid |} |}.

(** Four pending requests: two for [n1], one for the unknown node [n9],
    one for [n3]. *)
Definition pendingState : ReduxState :=
  {| pages := pages blogState; nodes := nodes blogState;
     byNode := byNode blogState;
     program_directory := "/site";
     nodeManifests := [request "m:1" "source-cms" "n1";
                       request "m/2" "source-cms" "n1";
                       request "m3" "source-cms" "n9";
                       request "m4" "source-cms" "n3"] |}.

(** Stand-ins for [path.join] (the segments joined by a slash) and
    [path.dirname] (what precedes the last slash), enough to run the
    samples. *)
Definition slashJoin (segments : list string) : string := join "/" segments.

Fixpoint beforeLastSlash (s : string) : option string :=
  match s with
  | EmptyString => None
  | String c rest =>
      match beforeLastSlash rest with
      | Some d => Some (String c d)
      | None => if Ascii.eqb c "/" then Some EmptyString else None
      end
  end.

Definition slashDirname (file : string) : string :=
  default "." (beforeLastSlash file).

Definition frozenClock (n : nat) : Z := 1000%Z.

(** On Windows, with a manifest already on disk where the request
    [a:b/c] of plugin [source-cms] will be written. *)
Definition staleManifest : INodeManifestOut :=
  {| out_node := {| node_id := "n0" |};
     out_page := INodeManifestPage.mk None;
     out_foundPageBy := NotFound |}.

Definition windowsMachine : Machine :=
  {| env := windowsEnv; state := blogState; datastore := sampleNodes;
     dirs := ∅;
     files := {[ "/site/public/__node-manifests/source-cms/a-b-c.json"
                 := staleManifest ]};
     trace := []; clockReads := 0;
     listOfUniqueErrorIds := []; nodeManifestPagePathMap := [];
     totalProcessedManifests := 0; totalFailedManifests := 0 |}.

(** The queue taken in the order of the pushes. *)
Definition pushOrder (l : list INodeManifest) : list INodeManifest := l.

Definition pendingMachine : Machine :=
  machineOf buildEnv pendingState sampleNodes.

(** ** Further derived notions and samples *)

(** The candidates of the loop; none when [pagePathSetOrMap] is
    undefined and the loop is skipped. *)
Definition candidatesOf (env : Env) (state : ReduxState) (nodeId : string)
  : list Candidate :=
  default [] (pagePathSetOrMap env state nodeId).

(** [nodes.get(fullPage.pluginCreatorId)?.name] *)
Definition creatorNameOf (state : ReduxState) (fullPage : IGatsbyPage.t)
  : option string :=
  JsMap.get (IGatsbyPage.pluginCreatorId fullPage) (nodes state) ≫= name.

(** A page owns [n1], and no query of [n1] has been tracked. *)
Definition untrackedOwnerState : ReduxState :=
  {| pages := [("/p", mkPage "/p" (Some "n1") None "plugin-blog")];
     nodes := sitePlugins;
     byNode := Some [];
     program_directory := "/site";
     nodeManifests := [] |}.

(** Two requests of one plugin whose ids differ in a reserved character
    only. *)
Definition colonRequest : INodeManifest := request "a:b" "source-cms" "n1".
Definition slashRequest : INodeManifest := request "a/b" "source-cms" "n3".

(** The pending requests of [pendingMachine], with verbose logs. *)
Definition verbosePendingMachine : Machine :=
  machineOf verboseEnv pendingState sampleNodes.
(** ** The resolver: properties *)

(** Go through the elements of a list that is written out, closing the
    goal for each with [tac]. *)
Tactic Notation "each_element" hyp(H) "by" tactic3(tac) :=
  repeat (apply elem_of_cons in H as [->|H]; [tac|]);
  by apply elem_of_nil in H.

Section Resolver.

Variable state : ReduxState.
Variable nodeId : string.

Local Abbreviation scan' := (scan state nodeId).
Local Abbreviation body := (loopBody state nodeId).
Local Abbreviation owner := (ownerMatches state nodeId).
Local Abbreviation ctx := (contextMatches state nodeId).

Lemma scan_found cs lv :
  lv_foundOwnerNodeId lv = true → scan' cs lv = lv.
Proof. intros H. destruct cs as [|c cs]; simpl; [done|]. by rewrite H. Qed.

Lemma scan_cons c cs lv :
  lv_foundOwnerNodeId lv = false → scan' (c :: cs) lv = scan' cs (body c lv).
Proof. intros H. simpl. by rewrite H. Qed.

Lemma body_found c lv : lv_foundOwnerNodeId (body c lv) = owner c.
Proof. done. Qed.

Lemma body_owner c lv fullPage :
  fullPageOf state c = Some fullPage →
  IGatsbyPage.ownerNodeId fullPage = Some nodeId →
  body c lv = {| lv_foundPageBy := OwnerNodeId;
                 lv_ownerPagePath := Some (IGatsbyPage.path fullPage);
                 lv_foundOwnerNodeId := true |}.
Proof.
  intros Hfp Ho. unfold loopBody, ownerMatches. rewrite Hfp.
  rewrite bool_decide_eq_true_2 by done. done.
Qed.

Lemma body_context c lv fullPage :
  fullPageOf state c = Some fullPage →
  owner c = false →
  PageContext.id (IGatsbyPage.context fullPage) = Some nodeId →
  body c lv = {| lv_foundPageBy :=
                   if pageCreatedByFilesystemPlugin state fullPage
                   then FilesystemRouteApi else ContextId;
                 lv_ownerPagePath := Some (IGatsbyPage.path fullPage);
                 lv_foundOwnerNodeId := false |}.
Proof.
  intros Hfp Ho Hc. unfold loopBody. rewrite Ho.
  unfold contextMatches. rewrite Hfp.
  rewrite bool_decide_eq_true_2 by done. done.
Qed.

Lemma body_no_match c lv :
  owner c = false → ctx c = false →
  body c lv = {| lv_foundPageBy := lv_foundPageBy lv;
                 lv_ownerPagePath := lv_ownerPagePath lv;
                 lv_foundOwnerNodeId := false |}.
Proof.
  intros Ho Hc. unfold loopBody. rewrite Ho, Hc.
  by destruct (fullPageOf state c).
Qed.

(** A candidate that matches by its context has been looked up. *)
Lemma ctx_inv c :
  ctx c = true →
  ∃ fullPage, fullPageOf state c = Some fullPage
              ∧ PageContext.id (IGatsbyPage.context fullPage) = Some nodeId.
Proof.
  unfold contextMatches. destruct (fullPageOf state c) as [fp|]; [|done].
  intros H%bool_decide_eq_true_1. eauto.
Qed.

Lemma owner_inv c :
  owner c = true →
  ∃ fullPage, fullPageOf state c = Some fullPage
              ∧ IGatsbyPage.ownerNodeId fullPage = Some nodeId.
Proof.
  unfold ownerMatches. destruct (fullPageOf state c) as [fp|]; [|done].
  intros H%bool_decide_eq_true_1. eauto.
Qed.

(** Candidates without an owner match are all visited. *)
Lemma scan_app pre rest lv :
  lv_foundOwnerNodeId lv = false →
  (∀ c, c ∈ pre → owner c = false) →
  scan' (pre ++ rest) lv = scan' rest (scan' pre lv)
  ∧ lv_foundOwnerNodeId (scan' pre lv) = false.
Proof.
  revert lv. induction pre as [|c pre IH]; intros lv Hlv Hpre; [done|].
  rewrite <- app_comm_cons, !scan_cons by done.
  apply IH.
  - rewrite body_found. apply Hpre. left.
  - intros c' Hc'. apply Hpre. by right.
Qed.

(** Candidates that match in neither way leave the variables alone. *)
Lemma scan_no_match cs lv :
  lv_foundOwnerNodeId lv = false →
  (∀ c, c ∈ cs → owner c = false ∧ ctx c = false) →
  scan' cs lv = lv.
Proof.
  revert lv. induction cs as [|c cs IH]; intros lv Hlv Hcs; [done|].
  rewrite scan_cons by done.
  destruct (Hcs c) as [Ho Hc]; [left|].
  rewrite body_no_match by done.
  rewrite IH; [|done|intros c' Hc'; apply Hcs; by right].
  destruct lv; simpl in *; by subst.
Qed.

(** The scan stops at the first candidate that matches by owner. *)
Lemma scan_first_owner pre c post lv fullPage :
  lv_foundOwnerNodeId lv = false →
  (∀ c', c' ∈ pre → owner c' = false) →
  fullPageOf state c = Some fullPage →
  IGatsbyPage.ownerNodeId fullPage = Some nodeId →
  scan' (pre ++ c :: post) lv
  = {| lv_foundPageBy := OwnerNodeId;
       lv_ownerPagePath := Some (IGatsbyPage.path fullPage);
       lv_foundOwnerNodeId := true |}.
Proof.
  intros Hlv Hpre Hfp Ho.
  destruct (scan_app pre (c :: post) lv Hlv Hpre) as [-> Hf].
  rewrite scan_cons by done.
  rewrite (body_owner _ _ _ Hfp Ho). by apply scan_found.
Qed.

(** Without an owner match, the last candidate that matches by context
    decides. *)
Lemma scan_last_context pre c post lv fullPage :
  lv_foundOwnerNodeId lv = false →
  (∀ c', c' ∈ pre ++ c :: post → owner c' = false) →
  fullPageOf state c = Some fullPage →
  PageContext.id (IGatsbyPage.context fullPage) = Some nodeId →
  (∀ c', c' ∈ post → ctx c' = false) →
  scan' (pre ++ c :: post) lv
  = {| lv_foundPageBy :=
         if pageCreatedByFilesystemPlugin state fullPage
         then FilesystemRouteApi else ContextId;
       lv_ownerPagePath := Some (IGatsbyPage.path fullPage);
       lv_foundOwnerNodeId := false |}.
Proof.
  intros Hlv Hown Hfp Hc Hpost.
  destruct (scan_app pre (c :: post) lv Hlv) as [-> Hf].
  { intros c' Hc'. apply Hown. apply elem_of_app. by left. }
  rewrite scan_cons by done.
  rewrite (body_context _ _ _ Hfp) by (done || apply Hown; set_solver).
  apply scan_no_match; [done|].
  intros c' Hc'. split; [apply Hown; set_solver | by apply Hpost].
Qed.

(** The last element of a list that satisfies a boolean test. *)
Lemma last_such {A} (f : A → bool) (l : list A) :
  (∃ x, x ∈ l ∧ f x = true) →
  ∃ pre x post, l = pre ++ x :: post ∧ f x = true
                ∧ ∀ y, y ∈ post → f y = false.
Proof.
  induction l as [|a l IH]; intros (x & Hx & Hfx); [by inversion Hx|].
  destruct (decide (Exists (λ y, f y = true) l)) as [Hl|Hl].
  - apply Exists_exists in Hl.
    destruct (IH Hl) as (pre & y & post & -> & Hy & Hpost).
    exists (a :: pre), y, post. done.
  - assert (∀ y, y ∈ l → f y = false) as Hnone.
    { intros y Hy. destruct (f y) eqn:E; [|done].
      destruct Hl. apply Exists_exists. eauto. }
    apply elem_of_cons in Hx as [->|Hx].
    + exists [], a, l. done.
    + rewrite Hnone in Hfx; done.
Qed.

(** The first element of a list that satisfies a boolean test. *)
Lemma first_such {A} (f : A → bool) (l : list A) :
  (∃ x, x ∈ l ∧ f x = true) →
  ∃ pre x post, l = pre ++ x :: post ∧ f x = true
                ∧ ∀ y, y ∈ pre → f y = false.
Proof.
  induction l as [|a l IH]; intros (x & Hx & Hfx); [by inversion Hx|].
  destruct (f a) eqn:Hfa.
  - exists [], a, l. repeat split; [done|]. intros y Hy. by inversion Hy.
  - apply elem_of_cons in Hx as [->|Hx]; [congruence|].
    destruct IH as (pre & y & post & -> & Hy & Hpre); [by eauto|].
    exists (a :: pre), y, post. repeat split; [done|].
    intros z Hz. apply elem_of_cons in Hz as [->|Hz]; [done | by apply Hpre].
Qed.

End Resolver.

(** [findPageOwnedByNodeId] in terms of the variables the loop leaves
    behind. *)
Lemma findPageOwnedByNodeId_eq env state nodeId :
  findPageOwnedByNodeId env state nodeId
  = let pagePath := trackedPaths state nodeId ≫= JsSet.first in
    match pagePathSetOrMap env state nodeId with
    | Some cs =>
        let lv := scan state nodeId cs (initialVars state nodeId) in
        {| page := INodeManifestPage.mk
                     (js_or (js_or (lv_ownerPagePath lv) pagePath) None);
           foundPageBy := lv_foundPageBy lv |}
    | None =>
        {| page := INodeManifestPage.mk (js_or pagePath None);
           foundPageBy := lv_foundPageBy (initialVars state nodeId) |}
    end.
Proof. reflexivity. Qed.

Lemma js_or_truthy a b : truthy a = true → js_or a b = a.
Proof. unfold js_or. by intros ->. Qed.

Lemma js_or_Some s b : s ≠ EmptyString → js_or (Some s) b = Some s.
Proof. intros H. apply js_or_truthy. simpl. by apply bool_decide_eq_true_2. Qed.

Lemma js_or_None b : js_or None b = b.
Proof. done. Qed.

(** What [x || null] is: [x] when truthy, [null] otherwise. *)
Lemma js_or_null_is_Some a : is_Some (js_or a None) ↔ truthy a = true.
Proof.
  unfold js_or. destruct (truthy a) eqn:E; split; try done.
  intros _. destruct a; [eauto | done].
Qed.

(** Along the scan, either nothing has matched yet, or the variables
    hold the path of a page that was looked up and a kind that is
    neither [queryTracking] nor [none]. *)
Lemma scan_outcome state nodeId cs lv :
  let lv' := scan state nodeId cs lv in
  (lv_ownerPagePath lv' = lv_ownerPagePath lv
   ∧ lv_foundPageBy lv' = lv_foundPageBy lv)
  ∨ (∃ c fullPage,
       c ∈ cs ∧ fullPageOf state c = Some fullPage
       ∧ lv_ownerPagePath lv' = Some (IGatsbyPage.path fullPage)
       ∧ lv_foundPageBy lv' ≠ NotFound
       ∧ lv_foundPageBy lv' ≠ QueryTracking).
Proof.
  revert lv. induction cs as [|c cs IH]; intros lv; cbv zeta; [by left|].
  destruct (lv_foundOwnerNodeId lv) eqn:Hf.
  { rewrite scan_found by done. by left. }
  rewrite scan_cons by done.
  specialize (IH (loopBody state nodeId c lv)). cbv zeta in IH.
  destruct IH as [[Hp Hk]|(c' & fp & Hin & Hfp & Hp & Hk & Hk')].
  - rewrite Hp, Hk.
    destruct (ownerMatches state nodeId c) eqn:Ho.
    { destruct (owner_inv _ _ _ Ho) as (fp & Hfp & Hown).
      rewrite (body_owner _ _ _ _ _ Hfp Hown). simpl.
      right. exists c, fp. repeat split; try done. left. }
    destruct (contextMatches state nodeId c) eqn:Hc.
    { destruct (ctx_inv _ _ _ Hc) as (fp & Hfp & Hctx).
      rewrite (body_context _ _ _ _ _ Hfp Ho Hctx). simpl.
      right. exists c, fp. repeat split; try done; try left;
        by destruct (pageCreatedByFilesystemPlugin state fp). }
    rewrite body_no_match by done. by left.
  - right. exists c', fp. repeat split; try done. by right.
Qed.

(** C1: when some candidate, looked up in the pages map, has
    [ownerNodeId] equal to [nodeId], the result has [foundPageBy =
    ownerNodeId], whatever the other candidates and the tracking index
    hold, and the scan ends at the first such candidate: what follows it
    is never looked at. [page.path] is the path of that first page. The
    path of a page of the store is never the empty string ([createPage],
    which is not part of this file, refuses a page without a path); the
    conjunct on [page.path] says where that is used. *)
Theorem C1_owner_wins env state nodeId cs :
  pagePathSetOrMap env state nodeId = Some cs →
  (∃ c, c ∈ cs ∧ ownerMatches state nodeId c = true) →
  ∃ pre c post fullPage,
    cs = pre ++ c :: post
    ∧ (∀ c', c' ∈ pre → ownerMatches state nodeId c' = false)
    ∧ fullPageOf state c = Some fullPage
    ∧ IGatsbyPage.ownerNodeId fullPage = Some nodeId
    ∧ let r := findPageOwnedByNodeId env state nodeId in
      foundPageBy r = OwnerNodeId
      ∧ (IGatsbyPage.path fullPage ≠ EmptyString →
         INodeManifestPage.path (page r) = Some (IGatsbyPage.path fullPage))
      ∧ (∀ post',
           scan state nodeId (pre ++ c :: post') (initialVars state nodeId)
           = scan state nodeId (pre ++ [c]) (initialVars state nodeId)).
Proof.
  intros Hcs Hex.
  destruct (first_such (ownerMatches state nodeId) cs Hex)
    as (pre & c & post & -> & Hc & Hpre).
  destruct (owner_inv _ _ _ Hc) as (fullPage & Hfp & Hown).
  exists pre, c, post, fullPage. repeat split; try done.
  - rewrite findPageOwnedByNodeId_eq, Hcs. cbv zeta.
    by rewrite (scan_first_owner state nodeId pre c post _ fullPage).
  - intros Hne. rewrite findPageOwnedByNodeId_eq, Hcs. cbv zeta.
    rewrite (scan_first_owner state nodeId pre c post _ fullPage) by done.
    simpl. by rewrite !js_or_Some.
  - intros post'.
    by rewrite !(scan_first_owner state nodeId pre c _ _ fullPage).
Qed.

Lemma C1_owner_wins_witness :
  pagePathSetOrMap buildEnv blogState "n1"
  = Some [PagePath "/b"; PagePath "/a"; PagePath "/d"; PagePath "/c"]
  ∧ (∃ c, c ∈ [PagePath "/b"; PagePath "/a"; PagePath "/d"; PagePath "/c"]
          ∧ ownerMatches blogState "n1" c = true)
  ∧ foundPageBy (findPageOwnedByNodeId buildEnv blogState "n1") = OwnerNodeId
  ∧ ∃ pre c post fullPage,
      [PagePath "/b"; PagePath "/a"; PagePath "/d"; PagePath "/c"]
      = pre ++ c :: post
      ∧ (∀ c', c' ∈ pre → ownerMatches blogState "n1" c' = false)
      ∧ fullPageOf blogState c = Some fullPage
      ∧ IGatsbyPage.ownerNodeId fullPage = Some "n1"
      ∧ (IGatsbyPage.path fullPage ≠ EmptyString →
         INodeManifestPage.path
           (page (findPageOwnedByNodeId buildEnv blogState "n1"))
         = Some (IGatsbyPage.path fullPage)).
Proof.
  assert (∃ c, c ∈ [PagePath "/b"; PagePath "/a"; PagePath "/d"; PagePath "/c"]
               ∧ ownerMatches blogState "n1" c = true) as Hex.
  { exists (PagePath "/c"). split; [|reflexivity].
    do 3 right. left. }
  split; [reflexivity|]. split; [exact Hex|].
  destruct (C1_owner_wins buildEnv blogState "n1" _ eq_refl Hex)
    as (pre & c & post & fullPage & Hcs & Hpre & Hfp & Hown & Hk & Hp & _).
  split; [exact Hk|].
  exists pre, c, post, fullPage.
  repeat split; [exact Hcs | exact Hpre | exact Hfp | exact Hown | exact Hp].
Defined.

(** In iteration order [/d] comes before [/c], and both own [n1]: the
    first one is returned. *)
Example first_owner_wins :
  findPageOwnedByNodeId buildEnv blogState "n1"
  = {| page := INodeManifestPage.mk (Some "/d"); foundPageBy := OwnerNodeId |}.
Proof. reflexivity. Qed.

(** What the truthiness tests [if (ownerPagePath)] and [pagePath || null]
    would do with a page whose path is the empty string, were there one
    in the store: the kind is decided by the page, the path is not. *)
Example empty_path_owner :
  findPageOwnedByNodeId developmentEnv emptyPathOwnerState "n1"
  = {| page := INodeManifestPage.mk (Some "/other");
       foundPageBy := OwnerNodeId |}.
Proof. reflexivity. Qed.

Example empty_path_context :
  findPageOwnedByNodeId developmentEnv emptyPathContextState "n1"
  = {| page := INodeManifestPage.mk None; foundPageBy := ContextId |}.
Proof. reflexivity. Qed.

(** C2, as amended: with no candidate matching by owner and some
    candidate matching by [context.id], the result is decided by the
    last candidate, in iteration order, that matches by [context.id]:
    [foundPageBy] is [filesystem-route-api] when the node found under
    that page's [pluginCreatorId] is named [gatsby-plugin-page-creator]
    and [context.id] otherwise, and [page.path] is that page's path
    provided it is not the empty string. *)
Theorem C2_context_match env state nodeId cs :
  pagePathSetOrMap env state nodeId = Some cs →
  (∀ c, c ∈ cs → ownerMatches state nodeId c = false) →
  (∃ c, c ∈ cs ∧ contextMatches state nodeId c = true) →
  ∃ pre c post fullPage,
    cs = pre ++ c :: post
    ∧ fullPageOf state c = Some fullPage
    ∧ PageContext.id (IGatsbyPage.context fullPage) = Some nodeId
    ∧ (∀ c', c' ∈ post → contextMatches state nodeId c' = false)
    ∧ let r := findPageOwnedByNodeId env state nodeId in
      foundPageBy r
      = (if bool_decide
              (JsMap.get (IGatsbyPage.pluginCreatorId fullPage) (nodes state)
                 ≫= name = Some "gatsby-plugin-page-creator")
         then FilesystemRouteApi else ContextId)
      ∧ (IGatsbyPage.path fullPage ≠ EmptyString →
         INodeManifestPage.path (page r) = Some (IGatsbyPage.path fullPage)).
Proof.
  intros Hcs Hown Hex.
  destruct (last_such (contextMatches state nodeId) cs Hex)
    as (pre & c & post & -> & Hc & Hpost).
  destruct (ctx_inv _ _ _ Hc) as (fullPage & Hfp & Hctx).
  exists pre, c, post, fullPage. repeat split; try done.
  - rewrite findPageOwnedByNodeId_eq, Hcs. cbv zeta.
    by rewrite (scan_last_context state nodeId pre c post _ fullPage).
  - intros Hne. rewrite findPageOwnedByNodeId_eq, Hcs. cbv zeta.
    rewrite (scan_last_context state nodeId pre c post _ fullPage) by done.
    simpl. by rewrite !js_or_Some.
Qed.

Lemma C2_context_match_witness :
  pagePathSetOrMap buildEnv contextOnlyState "n1"
  = Some [PagePath "/a"; PagePath "/b"]
  ∧ ∃ pre c post fullPage,
      [PagePath "/a"; PagePath "/b"] = pre ++ c :: post
      ∧ fullPageOf contextOnlyState c = Some fullPage
      ∧ PageContext.id (IGatsbyPage.context fullPage) = Some "n1"
      ∧ (∀ c', c' ∈ post → contextMatches contextOnlyState "n1" c' = false)
      ∧ let r := findPageOwnedByNodeId buildEnv contextOnlyState "n1" in
        foundPageBy r
        = (if bool_decide
                (JsMap.get (IGatsbyPage.pluginCreatorId fullPage)
                   (nodes contextOnlyState)
                   ≫= name = Some "gatsby-plugin-page-creator")
           then FilesystemRouteApi else ContextId)
        ∧ (IGatsbyPage.path fullPage ≠ EmptyString →
           INodeManifestPage.path (page r) = Some (IGatsbyPage.path fullPage)).
Proof.
  split; [reflexivity|].
  apply (C2_context_match buildEnv contextOnlyState "n1").
  - reflexivity.
  - intros c Hc.
    each_element Hc by reflexivity.
  - exists (PagePath "/a"). split; [left | reflexivity].
Defined.

(** Of two pages that carry the node in their context, the later one in
    iteration order is returned, with the kind of its own creator. *)
Example context_match_last_wins :
  findPageOwnedByNodeId buildEnv contextOnlyState "n1"
  = {| page := INodeManifestPage.mk (Some "/b"); foundPageBy := ContextId |}.
Proof. reflexivity. Qed.

(** C2 as stated fails where two candidates match by context: no
    candidate is owned by [n1]; the page [/a], made by
    [gatsby-plugin-page-creator], has [n1] in its context; yet the
    result is neither the path of [/a] nor [filesystem-route-api], but
    what the later match [/b] gives. *)
Lemma C2_counterexample :
  let matching := mkPage "/a" None (Some "n1") "plugin-fs" in
  let r := findPageOwnedByNodeId buildEnv contextOnlyState "n1" in
  pagePathSetOrMap buildEnv contextOnlyState "n1"
  = Some [PagePath "/a"; PagePath "/b"]
  ∧ ownerMatches contextOnlyState "n1" (PagePath "/a") = false
  ∧ ownerMatches contextOnlyState "n1" (PagePath "/b") = false
  ∧ fullPageOf contextOnlyState (PagePath "/a") = Some matching
  ∧ PageContext.id (IGatsbyPage.context matching) = Some "n1"
  ∧ JsMap.get (IGatsbyPage.pluginCreatorId matching) (nodes contextOnlyState)
      ≫= name = Some "gatsby-plugin-page-creator"
  ∧ INodeManifestPage.path (page r) = Some "/b"
  ∧ INodeManifestPage.path (page r) ≠ Some (IGatsbyPage.path matching)
  ∧ foundPageBy r = ContextId
  ∧ foundPageBy r ≠ FilesystemRouteApi.
Proof. repeat split; try reflexivity; discriminate. Qed.

(** C3, as amended: when no candidate matches by owner or by
    [context.id] and the tracking index holds, for [nodeId], a set whose
    first entry is a non-empty path, the result is [foundPageBy =
    queryTracking] with that first entry as [page.path]; this holds in
    builds and in development alike ([env] is arbitrary). *)
Theorem C3_query_tracking env state nodeId first rest :
  trackedPaths state nodeId = Some (first :: rest) →
  first ≠ EmptyString →
  (∀ cs c, pagePathSetOrMap env state nodeId = Some cs → c ∈ cs →
           ownerMatches state nodeId c = false
           ∧ contextMatches state nodeId c = false) →
  findPageOwnedByNodeId env state nodeId
  = {| page := INodeManifestPage.mk (Some first);
       foundPageBy := QueryTracking |}.
Proof.
  intros Htr Hne Hnone.
  rewrite findPageOwnedByNodeId_eq. cbv zeta.
  assert (initialVars state nodeId
          = {| lv_foundPageBy := QueryTracking; lv_ownerPagePath := None;
               lv_foundOwnerNodeId := false |}) as Hinit.
  { unfold initialVars. rewrite Htr. simpl.
    by rewrite bool_decide_eq_true_2. }
  rewrite Hinit, Htr. simpl.
  destruct (pagePathSetOrMap env state nodeId) as [cs|] eqn:Hcs.
  - rewrite scan_no_match; [|done|by intros c Hc; apply (Hnone cs)].
    simpl. by rewrite js_or_None, !js_or_Some.
  - by rewrite js_or_Some.
Qed.

Lemma C3_query_tracking_witness :
  trackedPaths blogState "n3" = Some ("/e" :: ["/a"])
  ∧ findPageOwnedByNodeId buildEnv blogState "n3"
    = {| page := INodeManifestPage.mk (Some "/e");
         foundPageBy := QueryTracking |}
  ∧ findPageOwnedByNodeId developmentEnv blogState "n3"
    = {| page := INodeManifestPage.mk (Some "/e");
         foundPageBy := QueryTracking |}.
Proof.
  assert (∀ c : Candidate,
            c ∈ [PagePath "/e"; PagePath "/a"] →
            ownerMatches blogState "n3" c = false
            ∧ contextMatches blogState "n3" c = false) as Hbuild.
  { intros c Hc.
    each_element Hc by (split; reflexivity). }
  assert (∀ c : Candidate,
            c ∈ PageObject <$> JsMap.values (pages blogState) →
            ownerMatches blogState "n3" c = false
            ∧ contextMatches blogState "n3" c = false) as Hdev.
  { intros c Hc. simpl in Hc.
    each_element Hc by (split; reflexivity). }
  split; [reflexivity|]. split.
  - apply (C3_query_tracking buildEnv blogState "n3" "/e" ["/a"]).
    + reflexivity.
    + discriminate.
    + intros cs c Hcs Hc. injection Hcs as <-. by apply Hbuild.
  - apply (C3_query_tracking developmentEnv blogState "n3" "/e" ["/a"]).
    + reflexivity.
    + discriminate.
    + intros cs c Hcs Hc. injection Hcs as <-. by apply Hdev.
Defined.

(** C3 as stated fails for a node whose entry in the tracking index is a
    set that has been emptied: the id is in [byNode], no candidate
    matches, and the result is [none] without a path. *)
Lemma C3_counterexample :
  let r := findPageOwnedByNodeId buildEnv emptiedTrackingState "n1" in
  (byNode emptiedTrackingState ≫= JsMap.get "n1") = Some []
  ∧ pagePathSetOrMap buildEnv emptiedTrackingState "n1" = Some []
  ∧ foundPageBy r = NotFound
  ∧ INodeManifestPage.path (page r) = None
  ∧ foundPageBy r ≠ QueryTracking.
Proof. repeat split; try reflexivity. discriminate. Qed.

(** The same in development, where every page is a candidate. *)
Example emptied_tracking_development :
  findPageOwnedByNodeId developmentEnv emptiedTrackingState "n1"
  = {| page := INodeManifestPage.mk None; foundPageBy := NotFound |}.
Proof. reflexivity. Qed.

(** C4: the result's [foundPageBy] is one of the five kinds, and
    [page.path] is non-null exactly when [foundPageBy] is not [none]:
    a non-null path never comes with [none], in any store; a kind other
    than [none] comes with a non-null path in a store none of whose
    pages has the empty path, which is every store [createPage] fills.
    In particular a node that is absent from the tracking index and
    matched by no candidate gets [foundPageBy = none] and [page.path =
    null]. *)
Theorem C4_outcome_invariant env state nodeId :
  let r := findPageOwnedByNodeId env state nodeId in
  FoundPageBy_to_string (foundPageBy r)
    ∈ ["ownerNodeId"; "filesystem-route-api"; "context.id";
       "queryTracking"; "none"]
  ∧ (INodeManifestPage.path (page r) ≠ None → foundPageBy r ≠ NotFound)
  ∧ ((∀ k fullPage, JsMap.get k (pages state) = Some fullPage →
                    IGatsbyPage.path fullPage ≠ EmptyString) →
     foundPageBy r ≠ NotFound → INodeManifestPage.path (page r) ≠ None)
  ∧ (trackedPaths state nodeId = None →
     (∀ cs c, pagePathSetOrMap env state nodeId = Some cs → c ∈ cs →
              ownerMatches state nodeId c = false
              ∧ contextMatches state nodeId c = false) →
     r = {| page := INodeManifestPage.mk None; foundPageBy := NotFound |}).
Proof.
  intros r. subst r.
  split; [destruct (foundPageBy _); set_solver|].
  set (pagePath := trackedPaths state nodeId ≫= JsSet.first).
  assert (lv_foundPageBy (initialVars state nodeId) ≠ NotFound
          ↔ truthy pagePath = true) as Hinit.
  { unfold initialVars. fold pagePath. simpl. by destruct (truthy pagePath). }
  assert (∀ a : option string, a ≠ None ↔ is_Some a) as Hsome.
  { intros a. by rewrite <- not_eq_None_Some. }
  split; [|split].
  - rewrite findPageOwnedByNodeId_eq. cbv zeta. fold pagePath.
    destruct (pagePathSetOrMap env state nodeId) as [cs|]; simpl.
    + rewrite Hsome, js_or_null_is_Some.
      destruct (scan_outcome state nodeId cs (initialVars state nodeId))
        as [[Hp Hk]|(c & fp & _ & _ & _ & Hk & _)]; [|done].
      rewrite Hp, Hk. simpl. rewrite js_or_None. by rewrite Hinit.
    + rewrite Hsome, js_or_null_is_Some. by rewrite Hinit.
  - intros Hpaths. rewrite findPageOwnedByNodeId_eq. cbv zeta. fold pagePath.
    destruct (pagePathSetOrMap env state nodeId) as [cs|]; simpl.
    + rewrite Hsome, js_or_null_is_Some.
      destruct (scan_outcome state nodeId cs (initialVars state nodeId))
        as [[Hp Hk]|(c & fp & _ & Hfp & Hp & _)].
      * rewrite Hp, Hk. simpl. rewrite js_or_None. by rewrite Hinit.
      * intros _. rewrite Hp. rewrite js_or_Some by (by eapply Hpaths).
        simpl. apply bool_decide_eq_true_2. by eapply Hpaths.
    + rewrite Hsome, js_or_null_is_Some. by rewrite Hinit.
  - intros Htr Hnone.
    rewrite findPageOwnedByNodeId_eq. cbv zeta.
    unfold initialVars. rewrite Htr. simpl.
    destruct (pagePathSetOrMap env state nodeId) as [cs|] eqn:Hcs; [|done].
    rewrite scan_no_match; [done|done|by intros c Hc; apply (Hnone cs)].
Qed.

Lemma C4_outcome_invariant_witness :
  (∀ k fullPage, JsMap.get k (pages blogState) = Some fullPage →
                 IGatsbyPage.path fullPage ≠ EmptyString)
  ∧ (INodeManifestPage.path (page (findPageOwnedByNodeId buildEnv blogState "n1"))
       ≠ None
     ↔ foundPageBy (findPageOwnedByNodeId buildEnv blogState "n1") ≠ NotFound)
  ∧ trackedPaths blogState "n9" = None
  ∧ findPageOwnedByNodeId buildEnv blogState "n9"
    = {| page := INodeManifestPage.mk None; foundPageBy := NotFound |}.
Proof.
  assert (∀ k fullPage, JsMap.get k (pages blogState) = Some fullPage →
                        IGatsbyPage.path fullPage ≠ EmptyString) as Hpaths.
  { intros k fullPage. simpl.
    repeat (case_decide; [intros [= <-]; discriminate|]). discriminate. }
  split; [exact Hpaths|].
  destruct (C4_outcome_invariant buildEnv blogState "n1")
    as (_ & Hnone & Hsome & _).
  split; [split; [exact Hnone | exact (Hsome Hpaths)]|].
  split; [reflexivity|].
  destruct (C4_outcome_invariant buildEnv blogState "n9")
    as (_ & _ & _ & Habsent).
  apply Habsent; [reflexivity|].
  intros cs c Hcs. discriminate Hcs.
Defined.

(** The path of a result is never the empty string: it is null
    instead. *)
Lemma resolution_path_truthy env state nodeId pagePath :
  INodeManifestPage.path (page (findPageOwnedByNodeId env state nodeId))
  = Some pagePath →
  truthy (Some pagePath) = true.
Proof.
  rewrite findPageOwnedByNodeId_eq. cbv zeta.
  assert (∀ a, js_or a None = Some pagePath → truthy (Some pagePath) = true)
    as Hor.
  { intros a. unfold js_or. destruct (truthy a) eqn:E; [|done].
    by intros ->. }
  destruct (pagePathSetOrMap env state nodeId); simpl; apply Hor.
Qed.

(** ** [Map] and [Set]: properties *)

Section JsMapFacts.

Context {V : Type}.
Implicit Types (m : JsMap.t V) (k : string) (v : V).

Lemma JsMap_get_set_eq k v m : JsMap.get k (JsMap.set k v m) = Some v.
Proof.
  induction m as [|[k' v'] m IH]; simpl.
  - by rewrite decide_True.
  - destruct (decide (k' = k)) as [->|Hk]; simpl.
    + by rewrite decide_True.
    + by rewrite decide_False.
Qed.

Lemma JsMap_get_set_ne k k' v m :
  k ≠ k' → JsMap.get k' (JsMap.set k v m) = JsMap.get k' m.
Proof.
  intros Hne. induction m as [|[k0 v0] m IH]; simpl.
  - by rewrite decide_False.
  - destruct (decide (k0 = k)) as [->|Hk]; simpl.
    + by rewrite !decide_False.
    + destruct (decide (k0 = k')); [done | apply IH].
Qed.

Lemma JsMap_get_None k m : JsMap.get k m = None ↔ k ∉ JsMap.keys m.
Proof.
  unfold JsMap.keys. induction m as [|[k' v'] m IH]; simpl.
  - split; [intros _; apply not_elem_of_nil | done].
  - rewrite not_elem_of_cons.
    destruct (decide (k' = k)) as [->|Hk].
    + split; [done|]. by intros [? _].
    + rewrite IH. split; [by intros ?; split | by intros [_ ?]].
Qed.

Lemma JsMap_keys_set k v m :
  JsMap.keys (JsMap.set k v m)
  = if decide (k ∈ JsMap.keys m) then JsMap.keys m else JsMap.keys m ++ [k].
Proof.
  unfold JsMap.keys. induction m as [|[k' v'] m IH]; csimpl.
  - done.
  - destruct (decide (k' = k)) as [->|Hk]; csimpl.
    + rewrite decide_True; [done | left].
    + rewrite IH. destruct (decide (k ∈ m.*1)) as [Hin|Hin].
      * rewrite decide_True; [done | by right].
      * rewrite decide_False; [done|].
        rewrite not_elem_of_cons. by split.
Qed.

(** A [Map] never holds a key twice. *)
Lemma JsMap_set_NoDup k v m :
  NoDup (JsMap.keys m) → NoDup (JsMap.keys (JsMap.set k v m)).
Proof.
  intros Hnd. rewrite JsMap_keys_set. case_decide as Hin; [done|].
  apply NoDup_app. split; [done|]. split.
  - intros x Hx Hx'. apply list_elem_of_singleton in Hx'. by subst.
  - apply NoDup_singleton.
Qed.

End JsMapFacts.

Lemma setAll_app es es' map :
  setAll (es ++ es') map = setAll es' (setAll es map).
Proof. unfold setAll. apply foldl_app. Qed.

Lemma setAll_NoDup es map :
  NoDup (JsMap.keys map) → NoDup (JsMap.keys (setAll es map)).
Proof.
  revert map. induction es as [|[k v] es IH]; intros map Hnd; [done|].
  simpl. apply IH. by apply JsMap_set_NoDup.
Qed.

(** Entries whose key is not [k] do not change what [k] maps to. *)
Lemma setAll_get_other es map k :
  (∀ e, e ∈ es → e.1 ≠ k) →
  JsMap.get k (setAll es map) = JsMap.get k map.
Proof.
  revert map. induction es as [|[k' v] es IH]; intros map Hes; [done|].
  simpl. rewrite IH.
  - apply JsMap_get_set_ne. apply (Hes (k', v)). left.
  - intros e He. apply Hes. by right.
Qed.

(** The last entry set under a key is the one the map holds. *)
Lemma setAll_get_last pre k v post map :
  (∀ e, e ∈ post → e.1 ≠ k) →
  JsMap.get k (setAll (pre ++ (k, v) :: post) map) = Some v.
Proof.
  intros Hpost. rewrite setAll_app. simpl.
  rewrite setAll_get_other by done. apply JsMap_get_set_eq.
Qed.

Lemma addAll_app ids ids' s :
  addAll (ids ++ ids') s = addAll ids' (addAll ids s).
Proof. unfold addAll. apply foldl_app. Qed.

(** The keys of the map are those it had and those that were set. *)
Lemma setAll_keys es map k :
  k ∈ JsMap.keys (setAll es map)
  ↔ k ∈ JsMap.keys map ∨ ∃ e, e ∈ es ∧ e.1 = k.
Proof.
  revert map. induction es as [|[k' v] es IH]; intros map.
  - simpl. split; [by left|]. intros [?|(e & He & _)]; [done|].
    by apply elem_of_nil in He.
  - simpl. rewrite IH, JsMap_keys_set. split.
    + intros [Hk|(e & He & Hk)].
      * case_decide; [by left|].
        apply elem_of_app in Hk as [Hk|Hk]; [by left|].
        apply list_elem_of_singleton in Hk. subst.
        right. exists (k', v). split; [left | done].
      * right. exists e. split; [by right | done].
    + intros [Hk|(e & He & Hk)].
      * left. case_decide; [done|]. apply elem_of_app. by left.
      * apply elem_of_cons in He as [->|He].
        -- simpl in Hk. subst. left. case_decide; [done|].
           apply elem_of_app. right. by apply list_elem_of_singleton.
        -- right. eauto.
Qed.

(** What the map holds under a key was there before or was set. *)
Lemma setAll_get_elem es map k v :
  JsMap.get k (setAll es map) = Some v →
  JsMap.get k map = Some v ∨ (k, v) ∈ es.
Proof.
  revert map. induction es as [|[k' v'] es IH]; intros map; simpl.
  - by left.
  - intros Hget. destruct (IH _ Hget) as [Hset|Hin]; [|right; by right].
    destruct (decide (k' = k)) as [->|Hne].
    + rewrite JsMap_get_set_eq in Hset. injection Hset as ->. right. left.
    + rewrite JsMap_get_set_ne in Hset by done. by left.
Qed.

(** A key that was set is in the map. *)
Lemma setAll_get_is_Some es map k v :
  (k, v) ∈ es → is_Some (JsMap.get k (setAll es map)).
Proof.
  intros Hin. apply not_eq_None_Some. rewrite JsMap_get_None.
  intros Hk. apply Hk. apply setAll_keys. right. by exists (k, v).
Qed.

(** ** Diagnostics and the manifest processor: properties *)

Lemma FoundPageBy_of_to_string k :
  FoundPageBy_of_string (FoundPageBy_to_string k) = Some k.
Proof. by destruct k. Qed.

(** A string the [switch] has a [case] for names one of the five
    kinds. *)
Lemma FoundPageBy_of_string_inv s k :
  FoundPageBy_of_string s = Some k → s = FoundPageBy_to_string k.
Proof.
  unfold FoundPageBy_of_string.
  repeat case_decide; intros [= <-]; by subst.
Qed.

Lemma warn_returns inputManifest pagePath k verbose m :
  warnAboutNodeManifestMappingProblems inputManifest pagePath
    (FoundPageBy_to_string k) verbose m
  = Returned (foundPageByToLogIds k)
      (if verbose && bool_decide (foundPageByToLogIds k ≠ "success")
       then emit (ReporterError (foundPageByToLogIds k)
                    (MappingContext inputManifest pagePath)) m
       else m).
Proof.
  unfold warnAboutNodeManifestMappingProblems.
  rewrite FoundPageBy_of_to_string.
  destruct k, verbose; reflexivity.
Qed.

Lemma logId_not_success k :
  bool_decide (foundPageByToLogIds k ≠ "success") = isWarning k.
Proof. by destruct k. Qed.

Section Processor.

Variable path_join : list string → string.
Variable path_dirname : string → string.

Local Abbreviation processNodeManifest' :=
  (processNodeManifest path_join path_dirname).
Local Abbreviation afterRequest' := (afterRequest path_join path_dirname).

Lemma Machine_eta m :
  {| env := env m; state := state m; datastore := datastore m;
     dirs := dirs m; files := files m; trace := trace m;
     clockReads := clockReads m;
     listOfUniqueErrorIds := listOfUniqueErrorIds m;
     nodeManifestPagePathMap := nodeManifestPagePathMap m;
     totalProcessedManifests := totalProcessedManifests m;
     totalFailedManifests := totalFailedManifests m |} = m.
Proof. by destruct m. Qed.

(** The request of a node the datastore does not have. *)
Lemma processNodeManifest_unknown inputManifest verboseLogs m :
  datastore m !! node_id (node inputManifest) = None →
  processNodeManifest' inputManifest verboseLogs m
  = Returned None (afterRequest' verboseLogs m inputManifest).
Proof.
  intros Hnone.
  unfold processNodeManifest, afterRequest, requestEvents, requestErrorIds,
    requestEntry, nodeKnown.
  unfold mbind, Js_bind, getNode, gets. rewrite Hnone.
  rewrite bool_decide_eq_false_2 by (by intros [? ?]).
  destruct verboseLogs; cbn; rewrite ?app_nil_r; reflexivity.
Qed.

(** The request of a node the datastore has. *)
Lemma processNodeManifest_known inputManifest verboseLogs m :
  is_Some (datastore m !! node_id (node inputManifest)) →
  processNodeManifest' inputManifest verboseLogs m
  = Returned (Some (finalManifestOf m inputManifest))
      (afterRequest' verboseLogs m inputManifest).
Proof.
  intros Hsome.
  unfold processNodeManifest, afterRequest, requestEvents, requestErrorIds,
    requestEntry, nodeKnown, mappingLogId, finalManifestOf,
    manifestFilePathFor, fileNameBaseFor, resolutionOf.
  rewrite bool_decide_eq_true_2 by done.
  destruct Hsome as [n Hn].
  unfold mbind, Js_bind, getNode, gets at 1. rewrite Hn.
  unfold gets at 1.
  set (r := findPageOwnedByNodeId (env m) (state m) (node_id (node inputManifest))).
  destruct r as [[pagePath] k] eqn:Hr.
  cbn [page foundPageBy INodeManifestPage.path].
  destruct verboseLogs.
  - rewrite warn_returns, !logId_not_success.
    destruct k, pagePath as [p|]; try destruct (truthy (Some p));
      cbn; unfold emit; cbn; rewrite <- ?app_assoc; reflexivity.
  - rewrite warn_returns, !logId_not_success.
    destruct k, pagePath as [p|]; try destruct (truthy (Some p));
      cbn; unfold emit; cbn; rewrite <- ?app_assoc; reflexivity.
Qed.

Lemma processNodeManifest_returns inputManifest verboseLogs m :
  processNodeManifest' inputManifest verboseLogs m
  = Returned (if nodeKnown m inputManifest
              then Some (finalManifestOf m inputManifest) else None)
      (afterRequest' verboseLogs m inputManifest).
Proof.
  unfold nodeKnown. case_bool_decide as Hk.
  - by apply processNodeManifest_known.
  - apply processNodeManifest_unknown.
    by apply eq_None_not_Some.
Qed.

Lemma processNodeManifestTask_returns manifest verboseLogs m :
  processNodeManifestTask path_join path_dirname manifest verboseLogs m
  = Returned () (afterTask path_join path_dirname verboseLogs m manifest).
Proof.
  unfold processNodeManifestTask, mbind, Js_bind.
  rewrite processNodeManifest_returns. unfold afterTask.
  by destruct (nodeKnown m manifest).
Qed.

End Processor.

(** A string the [switch] has no [case] for reaches the [default]
    branch, which throws. *)
Lemma warn_throws_otherwise inputManifest pagePath s verbose m :
  (∀ k, s ≠ FoundPageBy_to_string k) →
  warnAboutNodeManifestMappingProblems inputManifest pagePath s verbose m
  = Threw "Node Manifest mapping is in an impossible state" m.
Proof.
  intros Hs. unfold warnAboutNodeManifestMappingProblems.
  destruct (FoundPageBy_of_string s) as [k|] eqn:E; [|done].
  apply FoundPageBy_of_string_inv in E. by destruct (Hs k).
Qed.

(** C5: a request whose node the datastore does not have makes
    [processNodeManifest] return null; nothing is written and no call
    to [fs] is made; diagnostic 11804 goes to the reporter at once when
    verbose and into the set of unique ids otherwise; the worker of the
    queue counts the request as failed, not as processed. *)
Theorem C5_missing_node path_join path_dirname inputManifest verboseLogs m :
  datastore m !! node_id (node inputManifest) = None →
  (∃ m',
     processNodeManifest path_join path_dirname inputManifest verboseLogs m
     = Returned None m'
     ∧ files m' = files m ∧ dirs m' = dirs m
     ∧ fsCallsOf (trace m') = fsCallsOf (trace m)
     ∧ nodeManifestPagePathMap m' = nodeManifestPagePathMap m
     ∧ if verboseLogs
       then trace m' = trace m
                       ++ [ReporterError "11804"
                             (NoNodeContext (pluginName inputManifest)
                                (node_id (node inputManifest)))]
            ∧ listOfUniqueErrorIds m' = listOfUniqueErrorIds m
       else trace m' = trace m
            ∧ listOfUniqueErrorIds m'
              = JsSet.add "11804" (listOfUniqueErrorIds m))
  ∧ (∃ m',
       processNodeManifestTask path_join path_dirname inputManifest
         verboseLogs m = Returned () m'
       ∧ totalFailedManifests m' = S (totalFailedManifests m)
       ∧ totalProcessedManifests m' = totalProcessedManifests m).
Proof.
  intros Hnone.
  assert (nodeKnown m inputManifest = false) as Hk.
  { unfold nodeKnown. apply bool_decide_eq_false_2. rewrite Hnone.
    by intros [? ?]. }
  split.
  - eexists. split; [by apply processNodeManifest_unknown|].
    unfold afterRequest, requestEvents, requestErrorIds, requestEntry.
    rewrite Hk. cbn.
    destruct verboseLogs; cbn; rewrite ?app_nil_r; repeat split; try done.
    unfold fsCallsOf. by rewrite filter_app, app_nil_r.
  - eexists. split; [by apply processNodeManifestTask_returns|].
    unfold afterTask. rewrite Hk. done.
Qed.

Lemma C5_missing_node_witness :
  let m := machineOf buildEnv pendingState sampleNodes in
  let inputManifest := request "m3" "source-cms" "n9" in
  datastore m !! node_id (node inputManifest) = None
  ∧ (∃ m',
       processNodeManifest slashJoin slashDirname inputManifest false m
       = Returned None m'
       ∧ files m' = files m
       ∧ listOfUniqueErrorIds m' = ["11804"])
  ∧ (∃ m',
       processNodeManifestTask slashJoin slashDirname inputManifest false m
       = Returned () m'
       ∧ totalFailedManifests m' = 1
       ∧ totalProcessedManifests m' = 0).
Proof.
  intros m inputManifest.
  assert (datastore m !! node_id (node inputManifest) = None) as Hnone
    by reflexivity.
  split; [exact Hnone|].
  destruct (C5_missing_node slashJoin slashDirname inputManifest false m Hnone)
    as [(m1 & Hret & Hfiles & _ & _ & _ & _ & Hids) (m2 & Htask & Hf & Hp)].
  split.
  - exists m1. repeat split; [exact Hret | exact Hfiles | exact Hids].
  - exists m2. repeat split; [exact Htask | exact Hf | exact Hp].
Defined.

(** C6: for each of the five kinds,
    [warnAboutNodeManifestMappingProblems] returns the id of the fixed
    table and never throws; an id other than [success] is handed to the
    reporter, at once, exactly when verbose; when not verbose the
    caller, [processNodeManifest], adds it to the set of unique ids
    instead. *)
Theorem C6_diagnostic_table path_join path_dirname inputManifest verbose m :
  let logIdOf k :=
    match k with
    | NotFound => "11801"
    | ContextId => "11802"
    | QueryTracking => "11803"
    | FilesystemRouteApi => "success"
    | OwnerNodeId => "success"
    end in
  (∀ k pagePath, ∃ m',
     warnAboutNodeManifestMappingProblems inputManifest pagePath
       (FoundPageBy_to_string k) verbose m
     = Returned (logIdOf k) m'
     ∧ trace m'
       = trace m
         ++ (if verbose && bool_decide (logIdOf k ≠ "success")
             then [ReporterError (logIdOf k)
                     (MappingContext inputManifest pagePath)]
             else [])
     ∧ listOfUniqueErrorIds m' = listOfUniqueErrorIds m)
  ∧ (is_Some (datastore m !! node_id (node inputManifest)) →
     ∃ out m',
       processNodeManifest path_join path_dirname inputManifest verbose m
       = Returned (Some out) m'
       ∧ let logId := logIdOf (out_foundPageBy out) in
         errorsOf (trace m')
         = errorsOf (trace m)
           ++ (if verbose && bool_decide (logId ≠ "success")
               then [logId] else [])
         ∧ listOfUniqueErrorIds m'
           = (if negb verbose && bool_decide (logId ≠ "success")
              then JsSet.add logId (listOfUniqueErrorIds m)
              else listOfUniqueErrorIds m)).
Proof.
  intros logIdOf.
  assert (∀ k, logIdOf k = foundPageByToLogIds k) as Htable
    by (by intros []).
  split.
  - intros k pagePath. eexists. rewrite Htable.
    split; [apply warn_returns|].
    destruct (verbose && _); cbn; by rewrite ?app_nil_r.
  - intros Hknown. eexists _, _.
    split; [by apply processNodeManifest_known|].
    cbn zeta. rewrite Htable.
    unfold afterRequest, requestEvents, requestErrorIds, nodeKnown,
      mappingLogId, finalManifestOf.
    rewrite bool_decide_eq_true_2 by done.
    cbn [trace listOfUniqueErrorIds out_foundPageBy].
    rewrite !logId_not_success.
    unfold errorsOf. rewrite !omap_app.
    destruct verbose, (isWarning _); cbn; by rewrite ?app_nil_r.
Qed.

Lemma C6_diagnostic_table_witness :
  let m := machineOf buildEnv pendingState sampleNodes in
  let inputManifest := request "m4" "source-cms" "n3" in
  is_Some (datastore m !! node_id (node inputManifest))
  ∧ ∃ out m',
      processNodeManifest slashJoin slashDirname inputManifest false m
      = Returned (Some out) m'
      ∧ out_foundPageBy out = QueryTracking
      ∧ errorsOf (trace m') = []
      ∧ listOfUniqueErrorIds m' = ["11803"].
Proof.
  intros m inputManifest.
  assert (is_Some (datastore m !! node_id (node inputManifest))) as Hknown.
  { exists {| name := None |}. reflexivity. }
  split; [exact Hknown|].
  destruct (proj2 (C6_diagnostic_table slashJoin slashDirname inputManifest
                     false m) Hknown)
    as (out & m' & Hret & Herr & Hids).
  exists out, m'.
  assert (out = finalManifestOf m inputManifest) as ->.
  { rewrite processNodeManifest_known in Hret by exact Hknown.
    by injection Hret as <- _. }
  repeat split; [exact Hret | exact Herr | exact Hids].
Defined.

Lemma replaceReserved_chars s :
  list_ascii_of_string (replaceReserved s)
  = (λ c, if reservedChar c then "-"%char else c) <$> list_ascii_of_string s.
Proof. induction s as [|c s IH]; simpl; [done|]. by rewrite IH. Qed.

(** C7: on [win32] the stem of the file name is [manifestId] with each
    colon, slash, asterisk, question mark, double quote, angle bracket,
    pipe and backslash replaced by a hyphen ([a:b/c] gives [a-b-c]); on
    any other platform it is [manifestId] itself. For a request whose
    node exists the directory of
    [path.join (siteRoot, public, __node-manifests, pluginName, stem.json)]
    is ensured, then the manifest is written to that path, where it
    replaces whatever the path held. *)
Theorem C7_artifact_path path_join path_dirname inputManifest verbose m :
  (∀ manifestId,
     list_ascii_of_string (fileNameBaseOf "win32" manifestId)
     = (λ c, if bool_decide
                  (c ∈ [":"; "/"; "*"; "?"; "034"; "<"; ">"; "|"; "092"]%char)
             then "-"%char else c)
       <$> list_ascii_of_string manifestId)
  ∧ fileNameBaseOf "win32" "a:b/c" = "a-b-c"
  ∧ (∀ process_platform manifestId,
       process_platform ≠ "win32" →
       fileNameBaseOf process_platform manifestId = manifestId)
  ∧ (is_Some (datastore m !! node_id (node inputManifest)) →
     let stem := fileNameBaseOf (platform (env m)) (manifestId inputManifest) in
     let file :=
       path_join [program_directory (state m); "public"; "__node-manifests";
                  pluginName inputManifest; stem +:+ ".json"] in
     ∃ out m',
       processNodeManifest path_join path_dirname inputManifest verbose m
       = Returned (Some out) m'
       ∧ fsCallsOf (trace m')
         = fsCallsOf (trace m)
           ++ [FsEnsureDir (path_dirname file); FsWriteJSON file out]
       ∧ path_dirname file ∈ dirs m'
       ∧ files m' !! file = Some out
       ∧ ∀ other, other ≠ file → files m' !! other = files m !! other).
Proof.
  split; [|split; [|split]].
  - intros manifestId. unfold fileNameBaseOf.
    rewrite decide_True by done. apply replaceReserved_chars.
  - reflexivity.
  - intros process_platform manifestId Hne. unfold fileNameBaseOf.
    by rewrite decide_False.
  - intros Hknown stem file. eexists _, _.
    split; [by apply processNodeManifest_known|].
    unfold afterRequest, requestEvents, nodeKnown.
    rewrite bool_decide_eq_true_2 by done.
    cbn [trace dirs files].
    change (manifestFilePathFor path_join m inputManifest) with file.
    repeat split.
    + unfold fsCallsOf. rewrite !filter_app.
      destruct (verbose && _), verbose; cbn; by rewrite ?app_nil_r.
    + set_solver.
    + apply lookup_insert_eq.
    + intros other Hne. by apply lookup_insert_ne.
Qed.

Lemma C7_artifact_path_witness :
  let inputManifest := request "a:b/c" "source-cms" "n1" in
  let file := "/site/public/__node-manifests/source-cms/a-b-c.json" in
  is_Some (datastore windowsMachine !! node_id (node inputManifest))
  ∧ files windowsMachine !! file = Some staleManifest
  ∧ ∃ out m',
      processNodeManifest slashJoin slashDirname inputManifest false
        windowsMachine = Returned (Some out) m'
      ∧ fsCallsOf (trace m')
        = [FsEnsureDir "/site/public/__node-manifests/source-cms";
           FsWriteJSON file out]
      ∧ files m' !! file = Some out
      ∧ out ≠ staleManifest.
Proof.
  intros inputManifest file.
  assert (is_Some (datastore windowsMachine !! node_id (node inputManifest)))
    as Hknown.
  { exists {| name := None |}. reflexivity. }
  split; [exact Hknown|]. split; [reflexivity|].
  destruct (proj2 (proj2 (proj2
              (C7_artifact_path slashJoin slashDirname inputManifest false
                 windowsMachine))) Hknown)
    as (out & m' & Hret & Hcalls & _ & Hfile & _).
  exists out, m'.
  assert (out = finalManifestOf windowsMachine inputManifest) as ->.
  { rewrite processNodeManifest_known in Hret by exact Hknown.
    by injection Hret as <- _. }
  repeat split; [exact Hret | exact Hcalls | exact Hfile | discriminate].
Defined.

(** ** The batch orchestrator: properties *)

Section Orchestrator.

Variable path_join : list string → string.
Variable path_dirname : string → string.
Variable clock : nat → Z.
Variable fastq_order : list INodeManifest → list INodeManifest.
Hypothesis fastq_order_perm : ∀ l, fastq_order l ≡ₚ l.

Local Abbreviation events := (requestEvents path_join path_dirname).
Local Abbreviation task := (afterTask path_join path_dirname).
Local Abbreviation queue := (afterQueue path_join path_dirname).

(** The cases of [requestEvents]. *)
Ltac request_cases m r v :=
  unfold requestEvents;
  destruct (nodeKnown m r), v; cbn [andb]; try reflexivity;
  destruct (bool_decide _); reflexivity.

Lemma runQueue_returns tasks verboseLogs m :
  runQueue path_join path_dirname tasks verboseLogs m
  = Returned () (queue verboseLogs m tasks).
Proof.
  revert m. induction tasks as [|manifest rest IH]; intros m; [done|].
  simpl. unfold mbind, Js_bind.
  rewrite processNodeManifestTask_returns. apply IH.
Qed.

(** Requests see the machine only through [env], [state] and
    [datastore]. *)
Lemma same_world m m' :
  env m' = env m → state m' = state m → datastore m' = datastore m →
  (∀ v, events v m' = events v m)
  ∧ (∀ v, requestErrorIds v m' = requestErrorIds v m)
  ∧ requestEntry m' = requestEntry m
  ∧ nodeKnown m' = nodeKnown m
  ∧ resolutionOf m' = resolutionOf m
  ∧ fileNameBaseFor m' = fileNameBaseFor m.
Proof.
  destruct m, m'. simpl. intros -> -> ->. done.
Qed.

Lemma afterTask_world v m r :
  env (task v m r) = env m
  ∧ state (task v m r) = state m
  ∧ datastore (task v m r) = datastore m.
Proof. unfold afterTask. by destruct (nodeKnown m r). Qed.

Lemma afterTask_fields v m r :
  clockReads (task v m r) = clockReads m
  ∧ trace (task v m r) = trace m ++ events v m r
  ∧ listOfUniqueErrorIds (task v m r)
    = addAll (requestErrorIds v m r) (listOfUniqueErrorIds m)
  ∧ nodeManifestPagePathMap (task v m r)
    = setAll (option_list (requestEntry m r)) (nodeManifestPagePathMap m)
  ∧ totalProcessedManifests (task v m r)
    = totalProcessedManifests m + (if nodeKnown m r then 1 else 0)
  ∧ totalFailedManifests (task v m r)
    = totalFailedManifests m + (if nodeKnown m r then 0 else 1).
Proof.
  unfold afterTask.
  destruct (nodeKnown m r) eqn:Hk; cbn; repeat split;
    try (by destruct (requestEntry m r)); lia.
Qed.

(** The queue, field by field. *)
Lemma afterQueue_fields v tasks m :
  env (queue v m tasks) = env m
  ∧ state (queue v m tasks) = state m
  ∧ datastore (queue v m tasks) = datastore m
  ∧ clockReads (queue v m tasks) = clockReads m
  ∧ trace (queue v m tasks) = trace m ++ (tasks ≫= events v m)
  ∧ listOfUniqueErrorIds (queue v m tasks)
    = addAll (tasks ≫= requestErrorIds v m) (listOfUniqueErrorIds m)
  ∧ nodeManifestPagePathMap (queue v m tasks)
    = setAll (omap (requestEntry m) tasks) (nodeManifestPagePathMap m)
  ∧ totalProcessedManifests (queue v m tasks)
    = totalProcessedManifests m + length (filter (λ r, nodeKnown m r) tasks)
  ∧ totalFailedManifests (queue v m tasks)
    = totalFailedManifests m + length (filter (λ r, ¬ nodeKnown m r) tasks).
Proof.
  revert m. induction tasks as [|r rest IH]; intros m.
  - cbn. rewrite app_nil_r. repeat split; lia.
  - unfold afterQueue. cbn [foldl]. fold (queue v (task v m r) rest).
    destruct (IH (task v m r))
      as (He & Hs & Hd & Hc & Ht & Hi & Hm & Hp & Hf).
    destruct (afterTask_world v m r) as (He' & Hs' & Hd').
    destruct (afterTask_fields v m r) as (Hc' & Ht' & Hi' & Hm' & Hp' & Hf').
    destruct (same_world m (task v m r) He' Hs' Hd')
      as (Hev & Hids & Hent & Hkn & _).
    rewrite He, Hs, Hd, Hc, Ht, Hi, Hm, Hp, Hf.
    rewrite He', Hs', Hd', Hc', Ht', Hi', Hm', Hp', Hf'.
    rewrite Hev, Hids, Hent, Hkn.
    rewrite !bind_cons, !filter_cons.
    repeat split; try done.
    + by rewrite app_assoc.
    + by rewrite addAll_app.
    + csimpl. by destruct (requestEntry m r).
    + case_decide; destruct (nodeKnown m r); simpl in *; try done; lia.
    + case_decide; destruct (nodeKnown m r); simpl in *; try done; try lia.
      all: exfalso; auto.
Qed.

Lemma processNodeManifests_empty m :
  nodeManifests (state m) = [] →
  processNodeManifests path_join path_dirname clock fastq_order m
  = Returned None (tick m).
Proof.
  intros Hempty.
  unfold processNodeManifests, mbind, Js_bind, gets, Date_now.
  cbn. by rewrite Hempty.
Qed.

Lemma processNodeManifests_nonempty m :
  nodeManifests (state m) ≠ [] →
  let v := verboseLogsOf (env m) in
  let mq := queue v (freshBatch (tick m))
              (fastq_order (nodeManifests (state m))) in
  ∃ m',
    processNodeManifests path_join path_dirname clock fastq_order m
    = Returned (Some (nodeManifestPagePathMap mq)) m'
    ∧ state m' = reduce deleteNodeManifests (state m)
    ∧ trace m'
      = trace mq
        ++ [ReporterInfo
              (summaryMessage (totalProcessedManifests mq)
                 (totalFailedManifests mq)
                 (clock (S (clockReads m)) - clock (clockReads m)));
            ReporterInfo (warningsMessage v (listOfUniqueErrorIds mq));
            StoreDispatch deleteNodeManifests]
    ∧ files m' = files mq ∧ dirs m' = dirs mq
    ∧ nodeManifestPagePathMap m' = nodeManifestPagePathMap mq
    ∧ listOfUniqueErrorIds m' = listOfUniqueErrorIds mq
    ∧ totalProcessedManifests m' = totalProcessedManifests mq
    ∧ totalFailedManifests m' = totalFailedManifests mq.
Proof.
  intros Hpending v mq.
  destruct (afterQueue_fields v (fastq_order (nodeManifests (state m)))
              (freshBatch (tick m)))
    as (_ & Hs & _ & Hc & _).
  fold mq in Hs, Hc. cbn in Hs, Hc.
  unfold processNodeManifests, mbind, Js_bind, gets, Date_now, modify.
  cbn. rewrite decide_False by (by destruct (nodeManifests (state m))).
  rewrite runQueue_returns. fold v. fold mq.
  unfold reporter_info, store_dispatch, modify, emit. cbn.
  rewrite Hs, Hc. eexists. split; [reflexivity|]. cbn.
  repeat split. by rewrite <- !app_assoc.
Qed.

(** The files the requests of a list write: one per request whose node
    exists. *)
Lemma writesOf_events v m l :
  writesOf (l ≫= events v m)
  = (λ r, (manifestFilePathFor path_join m r, finalManifestOf m r))
      <$> filter (λ r, nodeKnown m r) l.
Proof.
  induction l as [|r l IH]; [done|].
  rewrite bind_cons, filter_cons. unfold writesOf in *.
  rewrite omap_app, IH. request_cases m r v.
Qed.

Lemma dispatchesOf_events v m l : dispatchesOf (l ≫= events v m) = [].
Proof.
  induction l as [|r l IH]; [done|].
  rewrite bind_cons. unfold dispatchesOf in *.
  rewrite omap_app, IH, app_nil_r. request_cases m r v.
Qed.

Lemma known_or_not m l :
  length (filter (λ r, nodeKnown m r) l)
  + length (filter (λ r, ¬ nodeKnown m r) l) = length l.
Proof.
  induction l as [|r l IH]; [done|].
  rewrite !filter_cons.
  destruct (nodeKnown m r); repeat case_decide; simpl in *;
    try done; try lia; exfalso; auto.
Qed.

Lemma requestEntry_Some m r pagePath stem :
  requestEntry m r = Some (pagePath, stem)
  ↔ nodeKnown m r
    ∧ INodeManifestPage.path (page (resolutionOf m r)) = Some pagePath
    ∧ stem = fileNameBaseFor m r.
Proof.
  unfold requestEntry. destruct (nodeKnown m r).
  - destruct (INodeManifestPage.path (page (resolutionOf m r)))
      as [p|] eqn:Hp.
    + rewrite (resolution_path_truthy _ _ _ _ Hp). split.
      * intros [= <- <-]. done.
      * intros (_ & [= <-] & ->). done.
    + split; [done|]. by intros (_ & ? & _).
  - split; [done|]. by intros (? & _).
Qed.

(** C8: with no pending request [processNodeManifests] returns null at
    once: nothing is written, reported or dispatched and the store is
    left as it was. Otherwise the worker runs exactly once on every
    request that was pending at the start: the manifests written are,
    up to their order, one for each pending request whose node exists,
    and each request is counted once, as processed or as failed. The
    last thing done is the dispatch of [deleteNodeManifests], the only
    action dispatched, which leaves the pending collection empty. What
    is returned is the map from page paths to manifest ids: the map
    that starts empty and in which every request whose node exists and
    whose page path is non-null has set, in the order the queue took the
    requests, its page path to the stem of its file name; so every entry
    of the map comes from such a pending request, and every such
    request's page path is a key of the map. *)
Theorem C8_batch_run m :
  let pending := nodeManifests (state m) in
  let run := processNodeManifests path_join path_dirname clock fastq_order m in
  (pending = [] →
   ∃ m', run = Returned None m'
         ∧ trace m' = trace m ∧ files m' = files m ∧ dirs m' = dirs m
         ∧ state m' = state m)
  ∧ (pending ≠ [] →
     ∃ map m' written before,
       run = Returned (Some map) m'
       ∧ map = nodeManifestPagePathMap m'
       ∧ writesOf (trace m') = writesOf (trace m) ++ written
       ∧ written
         ≡ₚ (λ r, (manifestFilePathFor path_join m r, finalManifestOf m r))
              <$> filter (λ r, nodeKnown m r) pending
       ∧ totalProcessedManifests m'
         = length (filter (λ r, nodeKnown m r) pending)
       ∧ totalFailedManifests m'
         = length (filter (λ r, ¬ nodeKnown m r) pending)
       ∧ totalProcessedManifests m' + totalFailedManifests m'
         = length pending
       ∧ trace m' = before ++ [StoreDispatch deleteNodeManifests]
       ∧ dispatchesOf before = dispatchesOf (trace m)
       ∧ nodeManifests (state m') = []
       ∧ map = setAll (omap (requestEntry m) (fastq_order pending)) []
       ∧ (∀ pagePath stem,
            JsMap.get pagePath map = Some stem →
            ∃ r, r ∈ pending ∧ nodeKnown m r
                 ∧ INodeManifestPage.path (page (resolutionOf m r))
                   = Some pagePath
                 ∧ stem = fileNameBaseFor m r)
       ∧ (∀ r pagePath,
            r ∈ pending → nodeKnown m r →
            INodeManifestPage.path (page (resolutionOf m r)) = Some pagePath →
            is_Some (JsMap.get pagePath map))).
Proof.
  intros pending run. split.
  - intros Hempty. exists (tick m). split; [|done].
    by apply processNodeManifests_empty.
  - intros Hpending.
    destruct (processNodeManifests_nonempty m Hpending)
      as (m' & Hrun & Hs & Ht & _ & _ & Hm & _ & Hp & Hf).
    cbv zeta in Hrun, Ht, Hm, Hp, Hf.
    set (v := verboseLogsOf (env m)) in *.
    fold pending in Hrun, Ht, Hm, Hp, Hf.
    destruct (afterQueue_fields v (fastq_order pending) (freshBatch (tick m)))
      as (_ & _ & _ & _ & Ht' & _ & Hm' & Hp' & Hf').
    destruct (same_world m (freshBatch (tick m)))
      as (Hev & _ & Hent & Hkn & _); [done..|].
    rewrite Hev in Ht'. rewrite Hkn in Hp', Hf'. rewrite Hent in Hm'.
    cbn in Ht', Hp', Hf', Hm'.
    rewrite Ht' in Ht. rewrite Hp' in Hp. rewrite Hf' in Hf.
    rewrite Hm' in Hm.
    assert (totalProcessedManifests m'
            = length (filter (λ r, nodeKnown m r) pending)) as Hp''.
    { rewrite Hp. by rewrite (fastq_order_perm pending). }
    assert (totalFailedManifests m'
            = length (filter (λ r, ¬ nodeKnown m r) pending)) as Hf''.
    { rewrite Hf. by rewrite (fastq_order_perm pending). }
    set (s1 := summaryMessage _ _ _) in Ht.
    set (s2 := warningsMessage _ _) in Ht.
    exists (nodeManifestPagePathMap m'), m',
      ((λ r, (manifestFilePathFor path_join m r, finalManifestOf m r))
         <$> filter (λ r, nodeKnown m r) (fastq_order pending)),
      ((trace m ++ fastq_order pending ≫= events v m)
         ++ [ReporterInfo s1; ReporterInfo s2]).
    split; [subst run; by rewrite Hrun, Hm, Hm'|]. split; [done|].
    split.
    { rewrite Ht. unfold writesOf. rewrite !omap_app.
      fold (writesOf (trace m)).
      fold (writesOf (fastq_order pending ≫= events v m)).
      rewrite writesOf_events. cbn. by rewrite app_nil_r. }
    split; [by rewrite (fastq_order_perm pending)|].
    split; [exact Hp''|]. split; [exact Hf''|].
    split; [rewrite Hp'', Hf''; apply known_or_not|].
    split; [rewrite Ht; by rewrite <- !app_assoc|].
    split.
    { unfold dispatchesOf. rewrite !omap_app.
      fold (dispatchesOf (trace m)).
      fold (dispatchesOf (fastq_order pending ≫= events v m)).
      rewrite dispatchesOf_events. cbn. by rewrite !app_nil_r. }
    split; [by rewrite Hs|].
    split; [exact Hm|]. rewrite Hm. split.
    + intros pagePath stem Hget.
      apply setAll_get_elem in Hget as [Hget|Hin]; [done|].
      apply list_elem_of_omap in Hin as (r & Hr & He).
      apply requestEntry_Some in He as (Hk & Hpath & Hstem).
      exists r. split; [|done]. by rewrite <- (fastq_order_perm pending).
    + intros r pagePath Hr Hk Hpath.
      apply (setAll_get_is_Some _ _ _ (fileNameBaseFor m r)).
      apply list_elem_of_omap. exists r. split.
      * by rewrite (fastq_order_perm pending).
      * by apply requestEntry_Some.
Qed.

(** C10: the map a batch returns holds each page path at most once;
    the path a request with an existing node resolves to maps to the
    stem of the file name (the sanitized manifest id) of the last
    request, in the order the workers are taken, that resolves to it,
    whatever earlier requests had set; and the keys are exactly the
    non-null paths such requests resolve to, so that a request that
    resolves to null adds no entry. *)
Theorem C10_path_map m :
  let pending := nodeManifests (state m) in
  pending ≠ [] →
  ∃ map m',
    processNodeManifests path_join path_dirname clock fastq_order m
    = Returned (Some map) m'
    ∧ NoDup (JsMap.keys map)
    ∧ (∀ pre req post pagePath,
         fastq_order pending = pre ++ req :: post →
         nodeKnown m req →
         INodeManifestPage.path (page (resolutionOf m req)) = Some pagePath →
         (∀ later, later ∈ post → nodeKnown m later →
                   INodeManifestPage.path (page (resolutionOf m later))
                   ≠ Some pagePath) →
         JsMap.get pagePath map = Some (fileNameBaseFor m req))
    ∧ (∀ pagePath,
         pagePath ∈ JsMap.keys map
         ↔ ∃ req, req ∈ pending ∧ nodeKnown m req
                  ∧ INodeManifestPage.path (page (resolutionOf m req))
                    = Some pagePath).
Proof.
  intros pending Hpending.
  destruct (processNodeManifests_nonempty m Hpending) as (m' & Hrun & _).
  cbv zeta in Hrun. fold pending in Hrun.
  set (v := verboseLogsOf (env m)) in *.
  destruct (afterQueue_fields v (fastq_order pending) (freshBatch (tick m)))
    as (_ & _ & _ & _ & _ & _ & Hm & _).
  destruct (same_world m (freshBatch (tick m))) as (_ & _ & Hent & _);
    [done..|].
  rewrite Hent in Hm. cbn in Hm.
  eexists _, m'. split; [exact Hrun|]. rewrite Hm. split; [|split].
  - apply setAll_NoDup. apply NoDup_nil_2.
  - intros pre req post pagePath Horder Hknown Hpath Hlater.
    rewrite Horder, omap_app. simpl.
    assert (requestEntry m req = Some (pagePath, fileNameBaseFor m req))
      as -> by (by apply requestEntry_Some).
    apply setAll_get_last.
    intros [p stem] He Hp. simpl in Hp. subst p.
    apply list_elem_of_omap in He as (later & Hin & He).
    apply requestEntry_Some in He as (Hk & Hp & _).
    by apply (Hlater later).
  - intros pagePath. rewrite setAll_keys. split.
    + intros [Hk|([p stem] & He & Hp)]; [by apply elem_of_nil in Hk|].
      simpl in Hp. subst p.
      apply list_elem_of_omap in He as (req & Hin & He).
      apply requestEntry_Some in He as (Hk & Hp & _).
      exists req. split; [|done]. by rewrite <- (fastq_order_perm pending).
    + intros (req & Hin & Hk & Hp). right.
      exists (pagePath, fileNameBaseFor m req). split; [|done].
      apply list_elem_of_omap. exists req. split.
      * by rewrite (fastq_order_perm pending).
      * by apply requestEntry_Some.
Qed.

End Orchestrator.

Lemma pushOrder_perm l : pushOrder l ≡ₚ l.
Proof. reflexivity. Defined.

Lemma C8_batch_run_witness :
  (∀ l, pushOrder l ≡ₚ l)
  ∧ nodeManifests (state pendingMachine) ≠ []
  ∧ ∃ map m' before,
      processNodeManifests slashJoin slashDirname frozenClock pushOrder
        pendingMachine = Returned (Some map) m'
      ∧ map = nodeManifestPagePathMap m'
      ∧ totalProcessedManifests m' = 3
      ∧ totalFailedManifests m' = 1
      ∧ trace m' = before ++ [StoreDispatch deleteNodeManifests]
      ∧ dispatchesOf before = []
      ∧ nodeManifests (state m') = []
      ∧ map = [("/d", "m/2"); ("/e", "m4")].
Proof.
  split; [exact pushOrder_perm|].
  assert (nodeManifests (state pendingMachine) ≠ []) as Hpending
    by discriminate.
  split; [exact Hpending|].
  destruct (proj2 (C8_batch_run slashJoin slashDirname frozenClock pushOrder
                     pushOrder_perm pendingMachine) Hpending)
    as (map & m' & written & before & Hrun & Hmap & _ & _
        & Hp & Hf & _ & Ht & Hd & Hs & Hentries & _).
  exists map, m', before.
  repeat split;
    [exact Hrun | exact Hmap | exact Hp | exact Hf | exact Ht | exact Hd
     | exact Hs | exact Hentries].
Defined.

Lemma C10_path_map_witness :
  (∀ l, pushOrder l ≡ₚ l)
  ∧ nodeManifests (state pendingMachine) ≠ []
  ∧ ∃ map m',
      processNodeManifests slashJoin slashDirname frozenClock pushOrder
        pendingMachine = Returned (Some map) m'
      ∧ NoDup (JsMap.keys map)
      ∧ JsMap.get "/d" map = Some "m/2".
Proof.
  split; [exact pushOrder_perm|].
  assert (nodeManifests (state pendingMachine) ≠ []) as Hpending
    by discriminate.
  split; [exact Hpending|].
  destruct (C10_path_map slashJoin slashDirname frozenClock pushOrder
              pushOrder_perm pendingMachine Hpending)
    as (map & m' & Hrun & Hnd & Hlast & _).
  exists map, m'. repeat split; [exact Hrun | exact Hnd |].
  apply (Hlast [request "m:1" "source-cms" "n1"]
               (request "m/2" "source-cms" "n1")
               [request "m3" "source-cms" "n9";
                request "m4" "source-cms" "n3"] "/d").
  - reflexivity.
  - vm_compute. exact I.
  - reflexivity.
  - intros later Hin Hknown.
    apply elem_of_cons in Hin as [->|Hin]; [by vm_compute in Hknown|].
    apply elem_of_cons in Hin as [->|Hin]; [discriminate|].
    by apply elem_of_nil in Hin.
Defined.

(** The sample batch, run: both requests for [n1] resolve to [/d], and
    the later one's id is what the map holds; the request for the
    unknown node [n9] fails and leaves [11804] behind; the request for
    [n3] is found by query tracking and leaves [11803]. *)
Example sample_batch :
  ∃ m',
    processNodeManifests slashJoin slashDirname frozenClock pushOrder
      pendingMachine
    = Returned (Some [("/d", "m/2"); ("/e", "m4")]) m'
    ∧ listOfUniqueErrorIds m' = ["11804"; "11803"]
    ∧ fst <$> writesOf (trace m')
      = ["/site/public/__node-manifests/source-cms/m:1.json";
         "/site/public/__node-manifests/source-cms/m/2.json";
         "/site/public/__node-manifests/source-cms/m4.json"].
Proof. eexists. split; [vm_compute; reflexivity|]. by vm_compute. Qed.

(** ** The resolver: what each kind of result stands for *)

(** The three ways the loop can end: at the first candidate that matches
    by owner; or, no candidate matching by owner, with what the last
    candidate that matches by context left; or, no candidate matching at
    all, with the variables it started from. *)
Lemma scan_cases state nodeId cs lv :
  lv_foundOwnerNodeId lv = false →
  (∃ pre c post fullPage,
     cs = pre ++ c :: post
     ∧ (∀ c', c' ∈ pre → ownerMatches state nodeId c' = false)
     ∧ fullPageOf state c = Some fullPage
     ∧ IGatsbyPage.ownerNodeId fullPage = Some nodeId
     ∧ scan state nodeId cs lv
       = {| lv_foundPageBy := OwnerNodeId;
            lv_ownerPagePath := Some (IGatsbyPage.path fullPage);
            lv_foundOwnerNodeId := true |})
  ∨ ((∀ c, c ∈ cs → ownerMatches state nodeId c = false)
     ∧ ((∃ pre c post fullPage,
           cs = pre ++ c :: post
           ∧ fullPageOf state c = Some fullPage
           ∧ PageContext.id (IGatsbyPage.context fullPage) = Some nodeId
           ∧ (∀ c', c' ∈ post → contextMatches state nodeId c' = false)
           ∧ scan state nodeId cs lv
             = {| lv_foundPageBy :=
                    if pageCreatedByFilesystemPlugin state fullPage
                    then FilesystemRouteApi else ContextId;
                  lv_ownerPagePath := Some (IGatsbyPage.path fullPage);
                  lv_foundOwnerNodeId := false |})
        ∨ ((∀ c, c ∈ cs → contextMatches state nodeId c = false)
           ∧ scan state nodeId cs lv = lv))).
Proof.
  intros Hlv.
  destruct (decide (Exists (λ c, ownerMatches state nodeId c = true) cs))
    as [Hown|Hown].
  - left. apply Exists_exists in Hown.
    destruct (first_such (ownerMatches state nodeId) cs Hown)
      as (pre & c & post & -> & Hc & Hpre).
    destruct (owner_inv _ _ _ Hc) as (fullPage & Hfp & Ho).
    exists pre, c, post, fullPage. repeat split; try done.
    by apply scan_first_owner.
  - right.
    assert (∀ c, c ∈ cs → ownerMatches state nodeId c = false) as Hnone.
    { intros c Hc. destruct (ownerMatches state nodeId c) eqn:E; [|done].
      destruct Hown. apply Exists_exists. eauto. }
    split; [exact Hnone|].
    destruct (decide (Exists (λ c, contextMatches state nodeId c = true) cs))
      as [Hctx|Hctx].
    + left. apply Exists_exists in Hctx.
      destruct (last_such (contextMatches state nodeId) cs Hctx)
        as (pre & c & post & -> & Hc & Hpost).
      destruct (ctx_inv _ _ _ Hc) as (fullPage & Hfp & Hid).
      exists pre, c, post, fullPage. repeat split; try done.
      by apply scan_last_context.
    + right.
      assert (∀ c, c ∈ cs → contextMatches state nodeId c = false) as Hnoctx.
      { intros c Hc. destruct (contextMatches state nodeId c) eqn:E; [|done].
        destruct Hctx. apply Exists_exists. eauto. }
      split; [exact Hnoctx|].
      apply scan_no_match; [done|]. intros c Hc. split; auto.
Qed.

(** The result in terms of the candidates, whether or not the loop is
    entered. *)
Lemma findPageOwnedByNodeId_candidates env state nodeId :
  let pagePath := trackedPaths state nodeId ≫= JsSet.first in
  let lv := scan state nodeId (candidatesOf env state nodeId)
              (initialVars state nodeId) in
  findPageOwnedByNodeId env state nodeId
  = {| page := INodeManifestPage.mk
                 (js_or (js_or (lv_ownerPagePath lv) pagePath) None);
       foundPageBy := lv_foundPageBy lv |}.
Proof.
  rewrite findPageOwnedByNodeId_eq. unfold candidatesOf. cbv zeta.
  by destruct (pagePathSetOrMap env state nodeId).
Qed.

(** X1: in a build (any [NODE_ENV] other than [development]) a node the
    tracking index has no entry for is not resolved at all: the loop is
    skipped, whatever the pages say, and the result is [none] with a
    null path. *)
Theorem untracked_in_build env state nodeId :
  NODE_ENV env ≠ Some "development" →
  trackedPaths state nodeId = None →
  findPageOwnedByNodeId env state nodeId
  = {| page := INodeManifestPage.mk None; foundPageBy := NotFound |}.
Proof.
  intros Henv Htr.
  unfold findPageOwnedByNodeId, pagePathSetOrMap, usingPagesMap.
  rewrite bool_decide_eq_false_2 by done. by rewrite Htr.
Qed.

Lemma untracked_in_build_witness :
  NODE_ENV buildEnv ≠ Some "development"
  ∧ trackedPaths untrackedOwnerState "n1" = None
  ∧ JsMap.get "/p" (pages untrackedOwnerState)
    = Some (mkPage "/p" (Some "n1") None "plugin-blog")
  ∧ findPageOwnedByNodeId buildEnv untrackedOwnerState "n1"
    = {| page := INodeManifestPage.mk None; foundPageBy := NotFound |}.
Proof.
  assert (NODE_ENV buildEnv ≠ Some "development") as Henv by discriminate.
  split; [exact Henv|]. split; [reflexivity|]. split; [reflexivity|].
  exact (untracked_in_build buildEnv untrackedOwnerState "n1" Henv eq_refl).
Defined.

(** The same page is found, by its owner, in development. *)
Example untracked_in_development :
  findPageOwnedByNodeId developmentEnv untrackedOwnerState "n1"
  = {| page := INodeManifestPage.mk (Some "/p"); foundPageBy := OwnerNodeId |}.
Proof. reflexivity. Qed.

(** X2: every kind of result stands for the evidence it names.
    [ownerNodeId]: some candidate's page is owned by the node.
    [filesystem-route-api] and [context.id]: no candidate's page is
    owned by the node, some candidate's page has the node's id in its
    context, and that page's creator is, respectively is not, named
    [gatsby-plugin-page-creator]. [queryTracking]: no candidate matches
    in either way and the path is the first tracked one. [none]: no
    candidate matches, there is no usable tracked path, and the path is
    null. *)
Theorem foundPageBy_sound env state nodeId :
  let r := findPageOwnedByNodeId env state nodeId in
  let cs := candidatesOf env state nodeId in
  match foundPageBy r with
  | OwnerNodeId =>
      ∃ c fullPage,
        c ∈ cs ∧ fullPageOf state c = Some fullPage
        ∧ IGatsbyPage.ownerNodeId fullPage = Some nodeId
  | FilesystemRouteApi =>
      (∀ c, c ∈ cs → ownerMatches state nodeId c = false)
      ∧ ∃ c fullPage,
          c ∈ cs ∧ fullPageOf state c = Some fullPage
          ∧ PageContext.id (IGatsbyPage.context fullPage) = Some nodeId
          ∧ creatorNameOf state fullPage = Some "gatsby-plugin-page-creator"
  | ContextId =>
      (∀ c, c ∈ cs → ownerMatches state nodeId c = false)
      ∧ ∃ c fullPage,
          c ∈ cs ∧ fullPageOf state c = Some fullPage
          ∧ PageContext.id (IGatsbyPage.context fullPage) = Some nodeId
          ∧ creatorNameOf state fullPage ≠ Some "gatsby-plugin-page-creator"
  | QueryTracking =>
      (∀ c, c ∈ cs → ownerMatches state nodeId c = false
                     ∧ contextMatches state nodeId c = false)
      ∧ INodeManifestPage.path (page r)
        = trackedPaths state nodeId ≫= JsSet.first
      ∧ INodeManifestPage.path (page r) ≠ None
  | NotFound =>
      (∀ c, c ∈ cs → ownerMatches state nodeId c = false
                     ∧ contextMatches state nodeId c = false)
      ∧ truthy (trackedPaths state nodeId ≫= JsSet.first) = false
      ∧ INodeManifestPage.path (page r) = None
  end.
Proof.
  intros r cs. subst r.
  rewrite findPageOwnedByNodeId_candidates. cbv zeta. fold cs.
  destruct (scan_cases state nodeId cs (initialVars state nodeId) eq_refl)
    as [(pre & c & post & fp & Hcs & _ & Hfp & Ho & ->)
       |[Hown [(pre & c & post & fp & Hcs & Hfp & Hid & _ & ->)
              |[Hctx ->]]]]; simpl.
  - exists c, fp. repeat split; [|done..]. rewrite Hcs. set_solver.
  - assert (c ∈ cs) as Hin by (rewrite Hcs; set_solver).
    unfold pageCreatedByFilesystemPlugin. fold (creatorNameOf state fp).
    case_bool_decide as Hname; (split; [exact Hown|]); by exists c, fp.
  - assert (∀ c, c ∈ cs → ownerMatches state nodeId c = false
                          ∧ contextMatches state nodeId c = false) as Hun
      by (intros c Hc; split; auto).
    set (pagePath := trackedPaths state nodeId ≫= JsSet.first).
    destruct (truthy pagePath) eqn:Htruthy; simpl.
    + split; [exact Hun|]. rewrite js_or_None, !js_or_truthy by done.
      split; [done|]. by destruct pagePath.
    + split; [exact Hun|]. split; [done|].
      rewrite js_or_None. unfold js_or. by rewrite Htruthy.
Qed.

(** X3: the path of a result is never made up and never the empty
    string: it is the first path tracked for the node or the path of a
    page the pages map holds for a candidate. *)
Theorem page_path_provenance env state nodeId pagePath :
  INodeManifestPage.path (page (findPageOwnedByNodeId env state nodeId))
  = Some pagePath →
  pagePath ≠ EmptyString
  ∧ (trackedPaths state nodeId ≫= JsSet.first = Some pagePath
     ∨ ∃ c fullPage,
         c ∈ candidatesOf env state nodeId
         ∧ fullPageOf state c = Some fullPage
         ∧ IGatsbyPage.path fullPage = pagePath).
Proof.
  intros Hpath. split.
  - apply resolution_path_truthy in Hpath. simpl in Hpath.
    by apply bool_decide_eq_true_1 in Hpath.
  - rewrite findPageOwnedByNodeId_candidates in Hpath. simpl in Hpath.
    assert (∀ a, js_or a None = Some pagePath → a = Some pagePath) as Hor.
    { intros a. unfold js_or. by destruct (truthy a). }
    apply Hor in Hpath.
    destruct (scan_outcome state nodeId (candidatesOf env state nodeId)
                (initialVars state nodeId))
      as [[Hp _]|(c & fp & Hin & Hfp & Hp & _)]; rewrite Hp in Hpath.
    + left. by rewrite js_or_None in Hpath.
    + unfold js_or in Hpath.
      destruct (truthy (Some (IGatsbyPage.path fp))).
      * right. exists c, fp. by injection Hpath as ->.
      * by left.
Qed.

Lemma page_path_provenance_witness :
  INodeManifestPage.path (page (findPageOwnedByNodeId buildEnv blogState "n1"))
  = Some "/d"
  ∧ "/d" ≠ EmptyString
  ∧ (trackedPaths blogState "n1" ≫= JsSet.first = Some "/d"
     ∨ ∃ c fullPage,
         c ∈ candidatesOf buildEnv blogState "n1"
         ∧ fullPageOf blogState c = Some fullPage
         ∧ IGatsbyPage.path fullPage = "/d").
Proof.
  split; [reflexivity|].
  exact (page_path_provenance buildEnv blogState "n1" "/d" eq_refl).
Defined.

(** ** Diagnostics and the manifest processor: further properties *)

(** X4: the [switch] of [warnAboutNodeManifestMappingProblems] returns
    exactly for the strings that name one of the five kinds; on any
    other string it throws, with nothing reported and nothing
    changed. *)
Theorem warn_default_branch inputManifest pagePath s verbose m :
  ((∃ logId m',
      warnAboutNodeManifestMappingProblems inputManifest pagePath s verbose m
      = Returned logId m')
   ↔ ∃ k, s = FoundPageBy_to_string k)
  ∧ ((∀ k, s ≠ FoundPageBy_to_string k) →
     warnAboutNodeManifestMappingProblems inputManifest pagePath s verbose m
     = Threw "Node Manifest mapping is in an impossible state" m).
Proof.
  split; [split|].
  - intros (logId & m' & Hret).
    unfold warnAboutNodeManifestMappingProblems in Hret.
    destruct (FoundPageBy_of_string s) as [k|] eqn:E; [|done].
    exists k. by apply FoundPageBy_of_string_inv.
  - intros [k ->]. rewrite warn_returns. eauto.
  - apply warn_throws_otherwise.
Qed.

Lemma warn_default_branch_witness :
  (∀ k, "pageQuery" ≠ FoundPageBy_to_string k)
  ∧ warnAboutNodeManifestMappingProblems colonRequest None "pageQuery" true
      windowsMachine
    = Threw "Node Manifest mapping is in an impossible state" windowsMachine.
Proof.
  assert (∀ k, "pageQuery" ≠ FoundPageBy_to_string k) as Hs
    by (intros []; discriminate).
  split; [exact Hs|].
  exact (proj2 (warn_default_branch colonRequest None "pageQuery" true
                  windowsMachine) Hs).
Defined.

(** X5: the replacement applied on [win32] keeps the length of the id,
    leaves none of the nine characters behind, changes nothing when
    applied again, and changes an id only if it holds one of the nine
    characters. *)
Theorem replaceReserved_sanitizes s :
  String.length (replaceReserved s) = String.length s
  ∧ (∀ c, c ∈ list_ascii_of_string (replaceReserved s) →
          reservedChar c = false)
  ∧ replaceReserved (replaceReserved s) = replaceReserved s
  ∧ (replaceReserved s = s
     ↔ ∀ c, c ∈ list_ascii_of_string s → reservedChar c = false).
Proof.
  induction s as [|a s (IHlen & IHnone & IHidem & IHid)]; simpl.
  - repeat split; try done; intros; exfalso; by eapply not_elem_of_nil.
  - split; [by rewrite IHlen|]. split; [|split].
    + intros c Hc. apply elem_of_cons in Hc as [->|Hc]; [|by apply IHnone].
      by destruct (reservedChar a) eqn:E.
    + rewrite IHidem. f_equal.
      destruct (reservedChar a) eqn:E; [done | by rewrite E].
    + split.
      * intros [= Ha Hs] c Hc. apply elem_of_cons in Hc as [->|Hc].
        -- destruct (reservedChar a) eqn:E; [|done].
           subst a. by vm_compute in E.
        -- by apply IHid.
      * intros Hall. rewrite (Hall a) by left. f_equal.
        apply IHid. intros c Hc. apply Hall. by right.
Qed.

Section ProcessorExtras.

Variable path_join : list string → string.
Variable path_dirname : string → string.

Local Abbreviation after := (afterRequest path_join path_dirname).
Local Abbreviation fileOf := (manifestFilePathFor path_join).

Lemma afterRequest_world v m r :
  env (after v m r) = env m
  ∧ state (after v m r) = state m
  ∧ datastore (after v m r) = datastore m.
Proof. done. Qed.

(** X6: [processNodeManifest] never throws. It returns null exactly when
    the datastore has no node for the request; otherwise the manifest it
    returns carries the request's node and what the resolver found for
    that node. It leaves the environment, the store, the datastore, the
    counters of the batch and the clock alone. *)
Theorem processNodeManifest_total inputManifest verboseLogs m :
  ∃ result m',
    processNodeManifest path_join path_dirname inputManifest verboseLogs m
      = Returned result m'
    ∧ match result with
      | None => datastore m !! node_id (node inputManifest) = None
      | Some out =>
          is_Some (datastore m !! node_id (node inputManifest))
          ∧ out_node out = node inputManifest
          ∧ out_page out
            = page (findPageOwnedByNodeId (env m) (state m)
                      (node_id (node inputManifest)))
          ∧ out_foundPageBy out
            = foundPageBy (findPageOwnedByNodeId (env m) (state m)
                             (node_id (node inputManifest)))
      end
    ∧ env m' = env m ∧ state m' = state m ∧ datastore m' = datastore m
    ∧ totalProcessedManifests m' = totalProcessedManifests m
    ∧ totalFailedManifests m' = totalFailedManifests m
    ∧ clockReads m' = clockReads m.
Proof.
  eexists _, _. split; [apply processNodeManifest_returns|].
  split; [|done].
  unfold nodeKnown. case_bool_decide as Hk; [done|].
  by apply eq_None_not_Some.
Qed.

(** X7: when not verbose, [processNodeManifest] hands nothing to the
    reporter, neither an error nor a message; when verbose, it leaves
    the set of unique error ids as it was. *)
Theorem processNodeManifest_reporting inputManifest m :
  (∃ result m',
     processNodeManifest path_join path_dirname inputManifest false m
       = Returned result m'
     ∧ errorsOf (trace m') = errorsOf (trace m)
     ∧ infosOf (trace m') = infosOf (trace m))
  ∧ (∃ result m',
       processNodeManifest path_join path_dirname inputManifest true m
         = Returned result m'
       ∧ listOfUniqueErrorIds m' = listOfUniqueErrorIds m).
Proof.
  split; eexists _, _; (split; [apply processNodeManifest_returns|]).
  - unfold afterRequest, requestEvents. cbn [trace andb].
    unfold errorsOf, infosOf. rewrite !omap_app.
    destruct (nodeKnown m inputManifest); cbn; by rewrite !app_nil_r.
  - done.
Qed.

Lemma JsMap_set_set {V} k (v : V) map :
  JsMap.set k v (JsMap.set k v map) = JsMap.set k v map.
Proof.
  induction map as [|[k' v'] map IH]; simpl.
  - by rewrite decide_True.
  - destruct (decide (k' = k)) as [->|Hk]; simpl.
    + by rewrite decide_True.
    + rewrite decide_False by done. by rewrite IH.
Qed.

Lemma JsSet_add_add x s : JsSet.add x (JsSet.add x s) = JsSet.add x s.
Proof.
  unfold JsSet.add. destruct (decide (x ∈ s)) as [Hin|Hin].
  - by rewrite decide_True.
  - rewrite decide_True; [done|]. apply elem_of_app. right. left.
Qed.

(** A request adds at most one id to the set. *)
Lemma requestErrorIds_short v m r :
  requestErrorIds v m r = [] ∨ ∃ i, requestErrorIds v m r = [i].
Proof.
  unfold requestErrorIds.
  destruct v, (nodeKnown m r); try destruct (bool_decide _); eauto.
Qed.

(** X8: two requests of one plugin whose ids give the same file-name
    stem (on [win32], ids that differ only in reserved characters) are
    written to the same file: after both, the file holds the manifest of
    the second, and the first one's is gone. *)
Theorem same_stem_overwrites r1 r2 verboseLogs m :
  is_Some (datastore m !! node_id (node r1)) →
  is_Some (datastore m !! node_id (node r2)) →
  pluginName r1 = pluginName r2 →
  fileNameBaseOf (platform (env m)) (manifestId r1)
  = fileNameBaseOf (platform (env m)) (manifestId r2) →
  ∃ out1 out2 m1 m2,
    processNodeManifest path_join path_dirname r1 verboseLogs m
      = Returned (Some out1) m1
    ∧ processNodeManifest path_join path_dirname r2 verboseLogs m1
      = Returned (Some out2) m2
    ∧ fileOf m r1 = fileOf m r2
    ∧ files m1 !! fileOf m r1 = Some out1
    ∧ files m2 !! fileOf m r1 = Some out2
    ∧ out_node out1 = node r1 ∧ out_node out2 = node r2.
Proof.
  intros Hk1 Hk2 Hplugin Hstem.
  assert (fileOf m r1 = fileOf m r2) as Hfile.
  { unfold manifestFilePathFor, fileNameBaseFor. by rewrite Hplugin, Hstem. }
  eexists _, _, _, _.
  split; [by apply processNodeManifest_known|].
  split; [by apply processNodeManifest_known|].
  split; [exact Hfile|].
  unfold afterRequest, nodeKnown. cbn [files datastore env state].
  rewrite !bool_decide_eq_true_2 by done.
  repeat split.
  - apply lookup_insert_eq.
  - rewrite Hfile. apply lookup_insert_eq.
Qed.

(** X9: processing a request a second time changes nothing but the
    trace: the same result is returned, and the files, the directories,
    the map of page paths and the set of error ids are as after the
    first time. *)
Theorem reprocessing_idempotent inputManifest verboseLogs m :
  ∃ result m1 m2,
    processNodeManifest path_join path_dirname inputManifest verboseLogs m
      = Returned result m1
    ∧ processNodeManifest path_join path_dirname inputManifest verboseLogs m1
      = Returned result m2
    ∧ files m2 = files m1 ∧ dirs m2 = dirs m1
    ∧ nodeManifestPagePathMap m2 = nodeManifestPagePathMap m1
    ∧ listOfUniqueErrorIds m2 = listOfUniqueErrorIds m1.
Proof.
  exists (if nodeKnown m inputManifest
          then Some (finalManifestOf m inputManifest) else None),
    (after verboseLogs m inputManifest),
    (after verboseLogs (after verboseLogs m inputManifest) inputManifest).
  split; [apply processNodeManifest_returns|].
  split; [by rewrite processNodeManifest_returns|].
  set (m1 := after verboseLogs m inputManifest).
  destruct (same_world path_join path_dirname m m1 eq_refl eq_refl eq_refl)
    as (_ & Hids & Hent & Hkn & _).
  assert (fileOf m1 inputManifest = fileOf m inputManifest) as Hfile
    by reflexivity.
  assert (finalManifestOf m1 inputManifest = finalManifestOf m inputManifest)
    as Hfinal by reflexivity.
  unfold afterRequest.
  cbn [files dirs nodeManifestPagePathMap listOfUniqueErrorIds].
  rewrite Hids, Hent, Hkn, Hfile, Hfinal.
  subst m1. unfold afterRequest.
  cbn [files dirs nodeManifestPagePathMap listOfUniqueErrorIds].
  repeat split.
  - destruct (nodeKnown m inputManifest); [|done].
    apply insert_insert_eq.
  - destruct (nodeKnown m inputManifest); [|done].
    by rewrite (assoc_L (∪)), union_idemp_L.
  - destruct (requestEntry m inputManifest) as [[k v]|]; [|done].
    apply JsMap_set_set.
  - destruct (requestErrorIds_short verboseLogs m inputManifest)
      as [->|[i ->]]; [done|]. simpl. apply JsSet_add_add.
Qed.

End ProcessorExtras.

Lemma same_stem_overwrites_witness :
  is_Some (datastore windowsMachine !! node_id (node colonRequest))
  ∧ is_Some (datastore windowsMachine !! node_id (node slashRequest))
  ∧ manifestId colonRequest ≠ manifestId slashRequest
  ∧ fileNameBaseOf (platform (env windowsMachine)) (manifestId colonRequest)
    = fileNameBaseOf (platform (env windowsMachine)) (manifestId slashRequest)
  ∧ ∃ out1 out2 m1 m2,
      processNodeManifest slashJoin slashDirname colonRequest false
        windowsMachine = Returned (Some out1) m1
      ∧ processNodeManifest slashJoin slashDirname slashRequest false m1
        = Returned (Some out2) m2
      ∧ files m2 !! "/site/public/__node-manifests/source-cms/a-b.json"
        = Some out2
      ∧ out_node out2 = {| node_id := "n3" |}.
Proof.
  assert (is_Some (datastore windowsMachine !! node_id (node colonRequest)))
    as Hk1 by (eexists; reflexivity).
  assert (is_Some (datastore windowsMachine !! node_id (node slashRequest)))
    as Hk2 by (eexists; reflexivity).
  split; [exact Hk1|]. split; [exact Hk2|]. split; [discriminate|].
  split; [reflexivity|].
  destruct (same_stem_overwrites slashJoin slashDirname colonRequest
              slashRequest false windowsMachine Hk1 Hk2 eq_refl eq_refl)
    as (out1 & out2 & m1 & m2 & H1 & H2 & _ & _ & Hfile & _ & Hnode).
  exists out1, out2, m1, m2.
  split; [exact H1|]. split; [exact H2|]. split; [exact Hfile | exact Hnode].
Defined.

(** ** The batch orchestrator: further properties *)

Lemma JsSet_add_elem x i s : i ∈ JsSet.add x s ↔ i ∈ s ∨ i = x.
Proof.
  unfold JsSet.add. case_decide as Hin.
  - split; [by left|]. intros [? | ->]; done.
  - rewrite elem_of_app, list_elem_of_singleton. done.
Qed.

Lemma JsSet_add_NoDup x s : NoDup s → NoDup (JsSet.add x s).
Proof.
  intros Hnd. unfold JsSet.add. case_decide as Hin; [exact Hnd|].
  apply NoDup_app. split; [exact Hnd|]. split; [|apply NoDup_singleton].
  intros y Hy Hy'. apply list_elem_of_singleton in Hy'. by subst.
Qed.

Lemma addAll_elem ids i s : i ∈ addAll ids s ↔ i ∈ s ∨ i ∈ ids.
Proof.
  revert s. induction ids as [|x ids IH]; intros s; simpl.
  - split; [by left|]. intros [?|H]; [done|]. by apply elem_of_nil in H.
  - rewrite IH, JsSet_add_elem, elem_of_cons. tauto.
Qed.

Lemma addAll_NoDup ids s : NoDup s → NoDup (addAll ids s).
Proof.
  revert s. induction ids as [|x ids IH]; intros s Hnd; [done|].
  simpl. apply IH. by apply JsSet_add_NoDup.
Qed.

(** The ids a request adds when not verbose are the ids it reports when
    verbose. *)
Lemma errorsOf_requestEvents path_join path_dirname m r :
  errorsOf (requestEvents path_join path_dirname true m r)
  = requestErrorIds false m r.
Proof.
  unfold requestEvents, requestErrorIds, errorsOf.
  destruct (nodeKnown m r); [|done]. cbn [andb].
  rewrite !omap_app. by destruct (bool_decide _).
Qed.

(** X11: the flag [verboseLogs] changes what is reported and nothing
    else. The same request, from the same machine, gives the same
    result, the same calls to [fs], the same files and the same entry in
    the map of page paths whether verbose or not; and the error ids
    reported when verbose are the ids added to the set when not. *)
Theorem verbosity_only_reporting path_join path_dirname inputManifest m :
  ∃ result quiet verbose reported,
    processNodeManifest path_join path_dirname inputManifest false m
    = Returned result quiet
    ∧ processNodeManifest path_join path_dirname inputManifest true m
      = Returned result verbose
    ∧ files verbose = files quiet ∧ dirs verbose = dirs quiet
    ∧ fsCallsOf (trace verbose) = fsCallsOf (trace quiet)
    ∧ nodeManifestPagePathMap verbose = nodeManifestPagePathMap quiet
    ∧ errorsOf (trace verbose) = errorsOf (trace m) ++ reported
    ∧ listOfUniqueErrorIds quiet = addAll reported (listOfUniqueErrorIds m).
Proof.
  eexists _, _, _, (requestErrorIds false m inputManifest).
  split; [apply processNodeManifest_returns|].
  split; [apply processNodeManifest_returns|].
  unfold afterRequest. cbn [files dirs trace nodeManifestPagePathMap
                              listOfUniqueErrorIds].
  repeat split.
  - unfold fsCallsOf, requestEvents. rewrite !filter_app.
    destruct (nodeKnown m inputManifest); [|done]. cbn [andb].
    by destruct (bool_decide _).
  - unfold errorsOf at 1 2. rewrite omap_app.
    fold (errorsOf (requestEvents path_join path_dirname true m inputManifest)).
    by rewrite errorsOf_requestEvents.
Qed.

Lemma setAll_keys_length es map :
  length (JsMap.keys (setAll es map)) ≤ length (JsMap.keys map) + length es.
Proof.
  revert map. induction es as [|[k v] es IH]; intros map; simpl; [lia|].
  etrans; [apply IH|]. rewrite JsMap_keys_set.
  case_decide; rewrite ?length_app; simpl; lia.
Qed.

Section OrchestratorExtras.

Variable path_join : list string → string.
Variable path_dirname : string → string.
Variable clock : nat → Z.
Variable fastq_order : list INodeManifest → list INodeManifest.
Hypothesis fastq_order_perm : ∀ l, fastq_order l ≡ₚ l.

Local Abbreviation queue := (afterQueue path_join path_dirname).

(** The machine the queue leaves, in terms of the machine the batch
    started from. *)
Lemma batch_queue_fields m :
  let v := verboseLogsOf (env m) in
  let order := fastq_order (nodeManifests (state m)) in
  let mq := queue v (freshBatch (tick m)) order in
  trace mq = trace m ++ (order ≫= requestEvents path_join path_dirname v m)
  ∧ listOfUniqueErrorIds mq = addAll (order ≫= requestErrorIds v m) []
  ∧ nodeManifestPagePathMap mq = setAll (omap (requestEntry m) order) []
  ∧ totalProcessedManifests mq = length (filter (λ r, nodeKnown m r) order)
  ∧ totalFailedManifests mq = length (filter (λ r, ¬ nodeKnown m r) order).
Proof.
  intros v order mq.
  destruct (afterQueue_fields path_join path_dirname v order
              (freshBatch (tick m)))
    as (_ & _ & _ & _ & Ht & Hi & Hm & Hp & Hf).
  destruct (same_world path_join path_dirname m (freshBatch (tick m)))
    as (Hev & Hids & Hent & Hkn & _); [done..|].
  rewrite Hev in Ht. rewrite Hids in Hi. rewrite Hent in Hm.
  rewrite Hkn in Hp, Hf. done.
Qed.

(** X10: the set of error ids a batch gathers never holds an id twice.
    When verbose it stays empty. When not verbose it holds exactly
    [11804], if some pending request has no node, and the ids other than
    [success] that the table gives for the kinds the pending requests
    resolve to. *)
Theorem batch_error_ids m :
  let pending := nodeManifests (state m) in
  pending ≠ [] →
  ∃ map m',
    processNodeManifests path_join path_dirname clock fastq_order m
    = Returned (Some map) m'
    ∧ NoDup (listOfUniqueErrorIds m')
    ∧ (verboseLogsOf (env m) = true → listOfUniqueErrorIds m' = [])
    ∧ (verboseLogsOf (env m) = false →
       ∀ i, i ∈ listOfUniqueErrorIds m'
            ↔ ∃ r, r ∈ pending
                   ∧ match datastore m !! node_id (node r) with
                     | None => i = "11804"
                     | Some _ =>
                         i = foundPageByToLogIds
                               (foundPageBy
                                  (findPageOwnedByNodeId (env m) (state m)
                                     (node_id (node r))))
                         ∧ i ≠ "success"
                     end).
Proof.
  intros pending Hpending.
  destruct (processNodeManifests_nonempty path_join path_dirname clock
              fastq_order m Hpending)
    as (m' & Hrun & _ & _ & _ & _ & _ & Hi & _).
  destruct (batch_queue_fields m) as (_ & Hi' & _).
  cbv zeta in Hrun, Hi, Hi'. rewrite Hi' in Hi. fold pending in Hi.
  eexists _, m'. split; [exact Hrun|]. rewrite Hi. split; [|split].
  - apply addAll_NoDup, NoDup_nil_2.
  - intros ->.
    assert (∀ l, l ≫= requestErrorIds true m = []) as ->; [|done].
    induction l as [|r l IH]; [done|]. by rewrite bind_cons, IH.
  - intros -> i. rewrite addAll_elem, list_elem_of_bind.
    split.
    + intros [Hi0|(r & Hir & Hr)]; [by apply elem_of_nil in Hi0|].
      exists r. split; [by rewrite <- (fastq_order_perm pending)|].
      unfold requestErrorIds, nodeKnown, mappingLogId, resolutionOf in Hir.
      destruct (datastore m !! node_id (node r)) as [n|] eqn:Hn.
      * rewrite bool_decide_eq_true_2 in Hir by eauto.
        case_bool_decide as Hs; [|by apply elem_of_nil in Hir].
        apply list_elem_of_singleton in Hir. by subst.
      * rewrite bool_decide_eq_false_2 in Hir by (by intros [? ?]).
        by apply list_elem_of_singleton in Hir.
    + intros (r & Hr & Hi0). right. exists r.
      split; [|by rewrite (fastq_order_perm pending)].
      unfold requestErrorIds, nodeKnown, mappingLogId, resolutionOf.
      destruct (datastore m !! node_id (node r)) as [n|] eqn:Hn.
      * destruct Hi0 as [-> Hs].
        rewrite bool_decide_eq_true_2 by eauto.
        rewrite bool_decide_eq_true_2 by done. left.
      * subst i. rewrite bool_decide_eq_false_2 by (by intros [? ?]). left.
Qed.

Lemma quiet_events m l :
  errorsOf (l ≫= requestEvents path_join path_dirname false m) = []
  ∧ infosOf (l ≫= requestEvents path_join path_dirname false m) = [].
Proof.
  induction l as [|r l [IHe IHi]]; [done|].
  rewrite bind_cons. unfold errorsOf, infosOf in *.
  rewrite !omap_app, IHe, IHi, !app_nil_r. unfold requestEvents.
  by destruct (nodeKnown m r).
Qed.

(** X12: a batch that is not verbose reports no error and exactly two
    messages, the two of the summary: the counts with the elapsed time
    between the two readings of the clock, and the list of the error ids
    gathered. *)
Theorem quiet_batch_reports_summary_only m :
  nodeManifests (state m) ≠ [] →
  verboseLogsOf (env m) = false →
  ∃ map m',
    processNodeManifests path_join path_dirname clock fastq_order m
    = Returned (Some map) m'
    ∧ errorsOf (trace m') = errorsOf (trace m)
    ∧ infosOf (trace m')
      = infosOf (trace m)
        ++ [summaryMessage (totalProcessedManifests m')
              (totalFailedManifests m')
              (clock (S (clockReads m)) - clock (clockReads m));
            warningsMessage false (listOfUniqueErrorIds m')].
Proof.
  intros Hpending Hquiet.
  destruct (processNodeManifests_nonempty path_join path_dirname clock
              fastq_order m Hpending)
    as (m' & Hrun & _ & Ht & _ & _ & _ & Hi & Hp & Hf).
  destruct (batch_queue_fields m) as (Ht' & _).
  cbv zeta in Hrun, Ht, Hi, Hp, Hf, Ht'.
  rewrite Hquiet in *. rewrite Ht' in Ht.
  destruct (quiet_events m (fastq_order (nodeManifests (state m))))
    as [Hnoerr Hnoinfo].
  eexists _, m'. split; [exact Hrun|].
  rewrite Ht, Hi, Hp, Hf. unfold errorsOf, infosOf in *.
  rewrite !omap_app, Hnoerr, Hnoinfo, !app_nil_r. done.
Qed.

Lemma entries_of_known m l :
  length (omap (requestEntry m) l)
  ≤ length (filter (λ r, nodeKnown m r) l).
Proof.
  induction l as [|r l IH]; [done|].
  rewrite filter_cons. csimpl. unfold requestEntry at 1.
  destruct (nodeKnown m r); [|done].
  rewrite decide_True by done.
  destruct (INodeManifestPage.path _) as [p|]; [|simpl; lia].
  destruct (truthy _); simpl; lia.
Qed.

(** X14: the map a batch returns never has more entries than manifests
    were written. *)
Theorem batch_map_size m :
  nodeManifests (state m) ≠ [] →
  ∃ map m',
    processNodeManifests path_join path_dirname clock fastq_order m
    = Returned (Some map) m'
    ∧ length (JsMap.keys map) ≤ totalProcessedManifests m'.
Proof.
  intros Hpending.
  destruct (processNodeManifests_nonempty path_join path_dirname clock
              fastq_order m Hpending)
    as (m' & Hrun & _ & _ & _ & _ & _ & _ & Hp & _).
  destruct (batch_queue_fields m) as (_ & _ & Hm & Hp' & _).
  cbv zeta in Hrun, Hp, Hm, Hp'.
  eexists _, m'. split; [exact Hrun|]. rewrite Hp, Hp', Hm.
  etrans; [apply setAll_keys_length|]. simpl. apply entries_of_known.
Qed.

Lemma verbose_events_counts m l :
  length (infosOf (l ≫= requestEvents path_join path_dirname true m))
  = length (filter (λ r, nodeKnown m r) l)
  ∧ length (filter (λ i, i = "11804")
              (errorsOf (l ≫= requestEvents path_join path_dirname true m)))
    = length (filter (λ r, ¬ nodeKnown m r) l).
Proof.
  induction l as [|r l [IHi IHe]]; [done|].
  rewrite bind_cons, !filter_cons. unfold errorsOf, infosOf in *.
  rewrite !omap_app, filter_app, !length_app, IHi, IHe.
  unfold requestEvents, mappingLogId.
  destruct (nodeKnown m r); cbn [andb].
  - rewrite decide_True by done. rewrite decide_False by auto.
    rewrite logId_not_success.
    by destruct (foundPageBy (resolutionOf m r)).
  - rewrite decide_False by auto. rewrite decide_True by auto. done.
Qed.

(** X15: a verbose batch reports one message for every manifest it
    writes, besides the two of the summary, and one error [11804] for
    every request it counts as failed. *)
Theorem verbose_batch_reports m :
  nodeManifests (state m) ≠ [] →
  verboseLogsOf (env m) = true →
  ∃ map m' reported,
    processNodeManifests path_join path_dirname clock fastq_order m
    = Returned (Some map) m'
    ∧ length (infosOf (trace m'))
      = length (infosOf (trace m)) + totalProcessedManifests m' + 2
    ∧ errorsOf (trace m') = errorsOf (trace m) ++ reported
    ∧ length (filter (λ i, i = "11804") reported) = totalFailedManifests m'.
Proof.
  intros Hpending Hverbose.
  destruct (processNodeManifests_nonempty path_join path_dirname clock
              fastq_order m Hpending)
    as (m' & Hrun & _ & Ht & _ & _ & _ & _ & Hp & Hf).
  destruct (batch_queue_fields m) as (Ht' & _ & _ & Hp' & Hf').
  cbv zeta in Hrun, Ht, Hp, Hf, Ht', Hp', Hf'.
  rewrite Hverbose in *. rewrite Ht' in Ht.
  destruct (verbose_events_counts m (fastq_order (nodeManifests (state m))))
    as [Hinfos Herrors].
  eexists _, m', _. split; [exact Hrun|].
  rewrite Ht, Hp, Hf, Hp', Hf'. split; [|split].
  - unfold infosOf in *. rewrite !omap_app, !length_app, Hinfos. simpl. lia.
  - unfold errorsOf. rewrite !omap_app. simpl. rewrite app_nil_r. reflexivity.
  - exact Herrors.
Qed.

End OrchestratorExtras.

Lemma batch_error_ids_witness :
  (∀ l, pushOrder l ≡ₚ l)
  ∧ nodeManifests (state pendingMachine) ≠ []
  ∧ verboseLogsOf (env pendingMachine) = false
  ∧ ∃ map m',
      processNodeManifests slashJoin slashDirname frozenClock pushOrder
        pendingMachine = Returned (Some map) m'
      ∧ NoDup (listOfUniqueErrorIds m')
      ∧ "11804" ∈ listOfUniqueErrorIds m'
      ∧ "11803" ∈ listOfUniqueErrorIds m'.
Proof.
  split; [exact pushOrder_perm|].
  assert (nodeManifests (state pendingMachine) ≠ []) as Hpending
    by discriminate.
  split; [exact Hpending|]. split; [reflexivity|].
  destruct (batch_error_ids slashJoin slashDirname frozenClock pushOrder
              pushOrder_perm pendingMachine Hpending)
    as (map & m' & Hrun & Hnd & _ & Hids).
  exists map, m'. split; [exact Hrun|]. split; [exact Hnd|]. split.
  - apply (Hids eq_refl). exists (request "m3" "source-cms" "n9").
    split; [|reflexivity]. do 2 right. left.
  - apply (Hids eq_refl). exists (request "m4" "source-cms" "n3").
    split; [do 3 right; left|]. split; [reflexivity | discriminate].
Defined.

Lemma quiet_batch_reports_summary_only_witness :
  nodeManifests (state pendingMachine) ≠ []
  ∧ verboseLogsOf (env pendingMachine) = false
  ∧ ∃ map m',
      processNodeManifests slashJoin slashDirname frozenClock pushOrder
        pendingMachine = Returned (Some map) m'
      ∧ errorsOf (trace m') = []
      ∧ length (infosOf (trace m')) = 2.
Proof.
  assert (nodeManifests (state pendingMachine) ≠ []) as Hpending
    by discriminate.
  split; [exact Hpending|]. split; [reflexivity|].
  destruct (quiet_batch_reports_summary_only slashJoin slashDirname
              frozenClock pushOrder pendingMachine Hpending eq_refl)
    as (map & m' & Hrun & Herr & Hinfo).
  exists map, m'. split; [exact Hrun|]. split; [exact Herr|].
  by rewrite Hinfo.
Defined.

Lemma batch_map_size_witness :
  nodeManifests (state pendingMachine) ≠ []
  ∧ ∃ map m',
      processNodeManifests slashJoin slashDirname frozenClock pushOrder
        pendingMachine = Returned (Some map) m'
      ∧ length (JsMap.keys map) ≤ totalProcessedManifests m'.
Proof.
  assert (nodeManifests (state pendingMachine) ≠ []) as Hpending
    by discriminate.
  split; [exact Hpending|].
  exact (batch_map_size slashJoin slashDirname frozenClock pushOrder
           pendingMachine Hpending).
Defined.

Lemma verbose_batch_reports_witness :
  nodeManifests (state verbosePendingMachine) ≠ []
  ∧ verboseLogsOf (env verbosePendingMachine) = true
  ∧ ∃ map m' reported,
      processNodeManifests slashJoin slashDirname frozenClock pushOrder
        verbosePendingMachine = Returned (Some map) m'
      ∧ length (infosOf (trace m')) = totalProcessedManifests m' + 2
      ∧ errorsOf (trace m') = reported
      ∧ length (filter (λ i, i = "11804") reported) = totalFailedManifests m'.
Proof.
  assert (nodeManifests (state verbosePendingMachine) ≠ []) as Hpending
    by discriminate.
  split; [exact Hpending|]. split; [reflexivity|].
  destruct (verbose_batch_reports slashJoin slashDirname frozenClock
              pushOrder verbosePendingMachine Hpending eq_refl)
    as (map & m' & reported & Hrun & Hinfo & Herr & Hfailed).
  exists map, m', reported.
  split; [exact Hrun|]. split; [exact Hinfo|]. split; [exact Herr|].
  exact Hfailed.
Defined.
